(** * Sistema de Controle de Gastos Residenciais: the backend core

    A shallow embedding of the ASP.NET controllers of the backend
    ([PessoasController], [CategoriasController], [TransacoesController],
    [RelatoriosController]) over the three tables of [AppDbContext].

    Conventions of the embedding.
    - A table ([DbSet]) is the list of its rows, in the order [ToListAsync]
      returns them.  Navigation collections ([Pessoa.Transacoes],
      [Categoria.Transacoes]) are not stored: [Include] computes them from
      the foreign keys, as the database does.
    - [int] is [Z] (no arithmetic is done on keys or ages, the only counter
      counts rows of a table).  A [decimal] is a 96-bit integer scaled by a
      power of ten between 0 and 28: an amount is the integer number of its
      units of 10^-28, the finest scale.  Comparison with zero is exact;
      sums and differences go through [Decimal.Add] and [Decimal.Subtract],
      which round or throw [OverflowException] as the runtime does.
    - [string] is the UTF-8 byte sequence of the C# string; [null] and the
      empty string are not told apart (the controllers treat them alike).
    - The key of a new row is generated by the database on
      [SaveChangesAsync]; it is an argument ([idGerado]) of the operations
      that insert a row.
    - [PostPessoa], [PostCategoria] and [PostTransacao] are the actions on
      the bodies the frontend sends, which carry the scalar fields
      ([{ descricao, valor, tipo, categoriaId, pessoaId }]).  The actions
      bind whole entities: [PostPessoaComTransacoes] is the action of
      [POST api/Pessoas] on a body whose [transacoes] collection is not
      empty.
    - A computation that can throw returns a [Talvez]: [OverflowException]
      from decimal arithmetic, [DbUpdateException] from
      [SaveChangesAsync]. *)

From Stdlib Require Import ZArith List String Ascii Bool Lia.
From Stdlib Require Import DecimalString DecimalZ.
Import ListNotations.
Open Scope Z_scope.

(** ** Strings of the runtime *)

Module Texto.

Definition codigo (c : ascii) : N := N_of_ascii c.

(** [char.IsWhiteSpace], on the UTF-8 encoding: U+0009..U+000D, U+0020,
    U+0085, U+00A0, U+1680, U+2000..U+200A, U+2028, U+2029, U+202F,
    U+205F and U+3000. *)
Definition branco1 (a : ascii) : bool :=
  let n := codigo a in
  (N.eqb n 32 || (N.leb 9 n && N.leb n 13))%bool.

Definition branco2 (a b : ascii) : bool :=
  (N.eqb (codigo a) 194 && (N.eqb (codigo b) 133 || N.eqb (codigo b) 160))%bool.

Definition branco3 (a b c : ascii) : bool :=
  let x := codigo a in
  let y := codigo b in
  let z := codigo c in
  ((N.eqb x 225 && N.eqb y 154 && N.eqb z 128)
   || (N.eqb x 226 && N.eqb y 128
       && ((N.leb 128 z && N.leb z 138)
           || N.eqb z 168 || N.eqb z 169 || N.eqb z 175))
   || (N.eqb x 226 && N.eqb y 129 && N.eqb z 159)
   || (N.eqb x 227 && N.eqb y 128 && N.eqb z 128))%bool.

(** [string.IsNullOrWhiteSpace]: every character is white space (true for
    the empty string). *)
Fixpoint IsNullOrWhiteSpace (s : string) : bool :=
  match s with
  | EmptyString => true
  | String a r1 =>
      if branco1 a then IsNullOrWhiteSpace r1
      else
        match r1 with
        | EmptyString => false
        | String b r2 =>
            if branco2 a b then IsNullOrWhiteSpace r2
            else
              match r2 with
              | EmptyString => false
              | String c r3 =>
                  if branco3 a b c then IsNullOrWhiteSpace r3 else false
              end
        end
  end.

(** [Enumerable.Contains] on an array of strings (ordinal comparison). *)
Definition Contains (valores : list string) (s : string) : bool :=
  existsb (String.eqb s) valores.

(** [Int32.ToString], as used by string interpolation. *)
Definition ToString (n : Z) : string :=
  NilEmpty.string_of_int (Z.to_int n).

End Texto.

(** ** Models *)

Module Pessoa.
Record t : Type := Build
  { Id : Z;
    Nome : string;
    Idade : Z }.
End Pessoa.

Module Categoria.
Record t : Type := Build
  { Id : Z;
    Descricao : string;
    Finalidade : string }.
End Categoria.

Module Transacao.
Record t : Type := Build
  { Id : Z;
    Descricao : string;
    Valor : Z;
    Tipo : string;
    CategoriaId : Z;
    PessoaId : Z }.

(** The row that [SaveChangesAsync] inserts: the entity with the key the
    database generated. *)
Definition comId (id : Z) (x : t) : t :=
  Build id (Descricao x) (Valor x) (Tipo x) (CategoriaId x) (PessoaId x).
End Transacao.

(** ** The database context *)

Record AppDbContext : Type := MkContext
  { Pessoas : list Pessoa.t;
    Categorias : list Categoria.t;
    Transacoes : list Transacao.t }.

(** [_context.Pessoas.FindAsync(id)] and [_context.Categorias.FindAsync(id)]:
    lookup by primary key. *)
Definition FindPessoa (ctx : AppDbContext) (id : Z) : option Pessoa.t :=
  find (fun p => Pessoa.Id p =? id) (Pessoas ctx).

Definition FindCategoria (ctx : AppDbContext) (id : Z) : option Categoria.t :=
  find (fun c => Categoria.Id c =? id) (Categorias ctx).

(** [Include(p => p.Transacoes)] and [Include(c => c.Transacoes)]: the rows
    of [Transacoes] whose foreign key is the key of the owner. *)
Definition TransacoesDaPessoa (ctx : AppDbContext) (p : Pessoa.t)
  : list Transacao.t :=
  filter (fun t => Transacao.PessoaId t =? Pessoa.Id p) (Transacoes ctx).

Definition TransacoesDaCategoria (ctx : AppDbContext) (c : Categoria.t)
  : list Transacao.t :=
  filter (fun t => Transacao.CategoriaId t =? Categoria.Id c) (Transacoes ctx).

(** ** Action results *)

Inductive ActionResult (A : Type) : Type :=
| BadRequest (message : string)
| NotFound (message : string)
| Ok (message : string)
| CreatedAtAction (value : A).

Arguments BadRequest {A} message.
Arguments NotFound {A} message.
Arguments Ok {A} message.
Arguments CreatedAtAction {A} value.

(** The HTTP status code of a result. *)
Definition StatusCode {A : Type} (r : ActionResult A) : Z :=
  match r with
  | BadRequest _ => 400
  | NotFound _ => 404
  | Ok _ => 200
  | CreatedAtAction _ => 201
  end.

(** [ActionResult<T>] of the [GET] actions: the value itself, returned with
    status 200, or a result. *)
Inductive Consulta (A : Type) : Type :=
| Value (value : A)
| Result (result : ActionResult unit).

Arguments Value {A} value.
Arguments Result {A} result.

(** ** Exceptions *)

Inductive Excecao : Type :=
| OverflowException
| DbUpdateException.

(** A computation that returns a value or throws. *)
Inductive Talvez (A : Type) : Type :=
| Retorna (valor : A)
| Lanca (e : Excecao).

Arguments Retorna {A} valor.
Arguments Lanca {A} e.

Definition liga {A B : Type} (m : Talvez A) (f : A -> Talvez B) : Talvez B :=
  match m with
  | Retorna a => f a
  | Lanca e => Lanca e
  end.

Notation "x <- m ;; k" := (liga m (fun x => k))
  (at level 100, m at next level, right associativity).

(** A [foreach] loop whose body may throw, with the variables of the loop
    as state. *)
Fixpoint foreach {A S : Type} (l : list A) (s : S)
    (corpo : S -> A -> Talvez S) : Talvez S :=
  match l with
  | [] => Retorna s
  | x :: resto => s' <- corpo s x ;; foreach resto s' corpo
  end.

(** ** System.Decimal *)

Module Decimal.

(** The largest 96-bit integer: a decimal is [m * 10^-s] with
    [|m| <= MaxMantissa] and [0 <= s <= 28]; counted in units of 10^-28 it
    is [m * 10^e] with [e = 28 - s].  A decimal is modelled by its value:
    the scale it is stored with (its trailing zeros) is not kept. *)
Definition MaxMantissa : Z := 2 ^ 96 - 1.

(** [n], in units of 10^-28, rounded to a multiple of [10^e], half to
    even. *)
Definition arredonda (e n : Z) : Z :=
  let p := 10 ^ e in
  let q := Z.abs n / p in
  let r := Z.abs n mod p in
  let q' :=
    if ((p <? 2 * r) || ((p =? 2 * r) && Z.odd q))%bool then q + 1 else q in
  Z.sgn n * q' * p.

(** The rounded value fits in 96 bits at the scale [28 - e]. *)
Definition cabe (e n : Z) : bool :=
  Z.abs (arredonda e n) / 10 ^ e <=? MaxMantissa.

(** The result of an operation whose exact value is [n]: the scale is
    lowered, one digit at a time, until the rounded value fits; past the
    scale 0 the operation throws. *)
Fixpoint ajusta (n e : Z) (escalas : nat) : Talvez Z :=
  match escalas with
  | O => Lanca OverflowException
  | S resto =>
      if cabe e n then Retorna (arredonda e n) else ajusta n (e + 1) resto
  end.

Definition Add (a b : Z) : Talvez Z := ajusta (a + b) 0 29.

Definition Subtract (a b : Z) : Talvez Z := ajusta (a - b) 0 29.

End Decimal.

(** ** LINQ operators used by the controllers *)

Definition Where {A : Type} (f : A -> bool) (l : list A) : list A := filter f l.

(** [Enumerable.Sum] over decimals: [sum += selector(item)] from 0. *)
Definition Sum {A : Type} (f : A -> Z) (l : list A) : Talvez Z :=
  foreach l 0 (fun sum x => Decimal.Add sum (f x)).

Definition Any {A : Type} (f : A -> bool) (l : list A) : bool := existsb f l.

(** ** PessoasController *)

Module PessoasController.

Definition PostPessoa (ctx : AppDbContext) (idGerado : Z) (pessoa : Pessoa.t)
  : ActionResult Pessoa.t * AppDbContext :=
  if Texto.IsNullOrWhiteSpace (Pessoa.Nome pessoa) then
    (BadRequest "O nome é obrigatório", ctx)
  else if Pessoa.Idade pessoa <? 0 then
    (BadRequest "A idade deve ser um número positivo", ctx)
  else
    let linha :=
      Pessoa.Build idGerado (Pessoa.Nome pessoa) (Pessoa.Idade pessoa) in
    (CreatedAtAction linha,
     MkContext (Pessoas ctx ++ [linha]) (Categorias ctx) (Transacoes ctx)).

(** [_context.Pessoas.Remove(pessoa)] followed by [SaveChangesAsync]: the
    row of the person is deleted, and with it every transaction whose
    [PessoaId] is its key ([OnDelete(DeleteBehavior.Cascade)] in
    [AppDbContext.OnModelCreating]). *)
Definition RemovePessoa (ctx : AppDbContext) (pessoa : Pessoa.t)
  : AppDbContext :=
  MkContext
    (filter (fun p => negb (Pessoa.Id p =? Pessoa.Id pessoa)) (Pessoas ctx))
    (Categorias ctx)
    (filter (fun t => negb (Transacao.PessoaId t =? Pessoa.Id pessoa))
       (Transacoes ctx)).

(** One turn of the [foreach] over [todasCategorias]: the state is the
    list of categories marked with [_context.Categorias.Remove] and the
    counter [categoriasRemovidas]. *)
Definition passoCategoria (ctx : AppDbContext)
    (estado : list Categoria.t * Z) (categoria : Categoria.t)
  : list Categoria.t * Z :=
  let temTransacoes :=
    Any (fun t => Transacao.CategoriaId t =? Categoria.Id categoria)
      (Transacoes ctx) in
  if negb temTransacoes then (fst estado ++ [categoria], snd estado + 1)
  else estado.

(** The final [SaveChangesAsync]: the marked categories are deleted by
    key. *)
Definition RemoveCategorias (ctx : AppDbContext)
    (marcadas : list Categoria.t) : AppDbContext :=
  MkContext
    (Pessoas ctx)
    (filter
       (fun c =>
          negb (existsb (fun m => Categoria.Id m =? Categoria.Id c) marcadas))
       (Categorias ctx))
    (Transacoes ctx).

Definition mensagemSucesso (categoriasRemovidas : Z) : string :=
  ("Pessoa deletada com sucesso. Todas as transações e "
     ++ Texto.ToString categoriasRemovidas
     ++ " categoria(s) órfã(s) foram removidas.")%string.

Definition DeletePessoa (ctx : AppDbContext) (id : Z)
  : ActionResult unit * AppDbContext :=
  match FindPessoa ctx id with
  | None => (NotFound "Pessoa não encontrada", ctx)
  | Some pessoa =>
      let ctx1 := RemovePessoa ctx pessoa in
      let todasCategorias := Categorias ctx1 in
      let fim := fold_left (passoCategoria ctx1) todasCategorias ([], 0) in
      let ctx2 := RemoveCategorias ctx1 (fst fim) in
      (Ok (mensagemSucesso (snd fim)), ctx2)
  end.

(** [PostPessoa] on a body with a [transacoes] collection.  The action
    binds the whole entity: [_context.Pessoas.Add(pessoa)] tracks the nested
    transactions with the person, and [SaveChangesAsync] inserts the person
    and then every nested transaction, with the key of the new person as
    [PessoaId]; the action checks the name and the age only.  The insert of
    a transaction whose category does not exist violates the foreign key of
    [OnModelCreating]: [SaveChangesAsync] throws and nothing is stored.  A
    nested transaction is taken with its scalar fields and the key the
    database generates for it. *)
Definition PostPessoaComTransacoes (ctx : AppDbContext) (idGerado : Z)
    (pessoa : Pessoa.t) (transacoes : list (Z * Transacao.t))
  : Talvez (ActionResult Pessoa.t * AppDbContext) :=
  if Texto.IsNullOrWhiteSpace (Pessoa.Nome pessoa) then
    Retorna (BadRequest "O nome é obrigatório", ctx)
  else if Pessoa.Idade pessoa <? 0 then
    Retorna (BadRequest "A idade deve ser um número positivo", ctx)
  else
    let linha :=
      Pessoa.Build idGerado (Pessoa.Nome pessoa) (Pessoa.Idade pessoa) in
    let novas :=
      map
        (fun kt =>
           Transacao.Build (fst kt) (Transacao.Descricao (snd kt))
             (Transacao.Valor (snd kt)) (Transacao.Tipo (snd kt))
             (Transacao.CategoriaId (snd kt)) idGerado)
        transacoes in
    if forallb
         (fun t =>
            existsb (fun c => Categoria.Id c =? Transacao.CategoriaId t)
              (Categorias ctx))
         novas
    then
      Retorna
        (CreatedAtAction linha,
         MkContext (Pessoas ctx ++ [linha]) (Categorias ctx)
           (Transacoes ctx ++ novas))
    else Lanca DbUpdateException.

Definition GetPessoas (ctx : AppDbContext) : list Pessoa.t := Pessoas ctx.

Definition GetPessoa (ctx : AppDbContext) (id : Z) : Consulta Pessoa.t :=
  match FindPessoa ctx id with
  | None => Result (NotFound "Pessoa não encontrada")
  | Some pessoa => Value pessoa
  end.

End PessoasController.

(** ** CategoriasController *)

Module CategoriasController.

Definition finalidadesValidas : list string :=
  ["Despesa"; "Receita"; "Ambas"]%string.

Definition PostCategoria (ctx : AppDbContext) (idGerado : Z)
    (categoria : Categoria.t)
  : ActionResult Categoria.t * AppDbContext :=
  if Texto.IsNullOrWhiteSpace (Categoria.Descricao categoria) then
    (BadRequest "A descrição é obrigatória", ctx)
  else if negb (Texto.Contains finalidadesValidas
                  (Categoria.Finalidade categoria)) then
    (BadRequest
       "Finalidade inválida. Valores aceitos: 'Despesa', 'Receita' ou 'Ambas'",
     ctx)
  else
    let linha :=
      Categoria.Build idGerado (Categoria.Descricao categoria)
        (Categoria.Finalidade categoria) in
    (CreatedAtAction linha,
     MkContext (Pessoas ctx) (Categorias ctx ++ [linha]) (Transacoes ctx)).

Definition GetCategorias (ctx : AppDbContext) : list Categoria.t :=
  Categorias ctx.

Definition GetCategoria (ctx : AppDbContext) (id : Z) : Consulta Categoria.t :=
  match FindCategoria ctx id with
  | None => Result (NotFound "Categoria não encontrada")
  | Some categoria => Value categoria
  end.

End CategoriasController.

(** ** TransacoesController *)

Module TransacoesController.

Definition tiposValidos : list string := ["Despesa"; "Receita"]%string.

Definition msgDescricao : string := "A descrição é obrigatória".
Definition msgValor : string := "O valor deve ser um número positivo".
Definition msgTipo : string :=
  "Tipo inválido. Valores aceitos: 'Despesa' ou 'Receita'".
Definition msgPessoa : string := "Pessoa não encontrada".
Definition msgMenor : string :=
  "Menores de idade (menor de 18 anos) só podem registrar despesas".
Definition msgCategoria : string := "Categoria não encontrada".
Definition msgSoReceitas : string :=
  "Esta categoria é exclusiva para receitas e não pode ser usada em despesas".
Definition msgSoDespesas : string :=
  "Esta categoria é exclusiva para despesas e não pode ser usada em receitas".

Definition PostTransacao (ctx : AppDbContext) (idGerado : Z)
    (transacao : Transacao.t)
  : ActionResult Transacao.t * AppDbContext :=
  if Texto.IsNullOrWhiteSpace (Transacao.Descricao transacao) then
    (BadRequest msgDescricao, ctx)
  else if Transacao.Valor transacao <=? 0 then
    (BadRequest msgValor, ctx)
  else if negb (Texto.Contains tiposValidos (Transacao.Tipo transacao)) then
    (BadRequest msgTipo, ctx)
  else
    match FindPessoa ctx (Transacao.PessoaId transacao) with
    | None => (BadRequest msgPessoa, ctx)
    | Some pessoa =>
        if ((Pessoa.Idade pessoa <? 18)
            && (Transacao.Tipo transacao =? "Receita")%string)%bool then
          (BadRequest msgMenor, ctx)
        else
          match FindCategoria ctx (Transacao.CategoriaId transacao) with
          | None => (BadRequest msgCategoria, ctx)
          | Some categoria =>
              if ((Transacao.Tipo transacao =? "Despesa")%string
                  && (Categoria.Finalidade categoria =? "Receita")%string)%bool
              then (BadRequest msgSoReceitas, ctx)
              else if ((Transacao.Tipo transacao =? "Receita")%string
                       && (Categoria.Finalidade categoria =? "Despesa")%string)%bool
              then (BadRequest msgSoDespesas, ctx)
              else
                let linha := Transacao.comId idGerado transacao in
                (CreatedAtAction linha,
                 MkContext (Pessoas ctx) (Categorias ctx)
                   (Transacoes ctx ++ [linha]))
          end
    end.

(** A transaction as the [GET] actions return it: the row and its two
    references, loaded by [Include(t => t.Pessoa)] and
    [Include(t => t.Categoria)] ([None] is [null]). *)
Record Carregada : Type := MkCarregada
  { linha : Transacao.t;
    pessoa : option Pessoa.t;
    categoria : option Categoria.t }.

Definition Include (ctx : AppDbContext) (t : Transacao.t) : Carregada :=
  MkCarregada t
    (FindPessoa ctx (Transacao.PessoaId t))
    (FindCategoria ctx (Transacao.CategoriaId t)).

Definition GetTransacoes (ctx : AppDbContext) : list Carregada :=
  map (Include ctx) (Transacoes ctx).

Definition GetTransacao (ctx : AppDbContext) (id : Z) : Consulta Carregada :=
  match find (fun t => Transacao.Id t =? id) (Transacoes ctx) with
  | None => Result (NotFound "Transação não encontrada")
  | Some transacao => Value (Include ctx transacao)
  end.

End TransacoesController.

(** ** RelatoriosController *)

Module RelatoriosController.

(** The anonymous objects of the reports. *)
Module TotaisPessoa.
Record t : Type := Build
  { pessoaId : Z;
    nome : string;
    idade : Z;
    totalReceitas : Z;
    totalDespesas : Z;
    saldo : Z }.
End TotaisPessoa.

Module TotaisCategoria.
Record t : Type := Build
  { categoriaId : Z;
    descricao : string;
    finalidade : string;
    totalReceitas : Z;
    totalDespesas : Z;
    saldo : Z }.
End TotaisCategoria.

Module TotalGeral.
Record t : Type := Build
  { totalReceitas : Z;
    totalDespesas : Z;
    saldoLiquido : Z }.
End TotalGeral.

Record Relatorio (A : Type) : Type := MkRelatorio
  { linhas : list A;
    totalGeral : TotalGeral.t }.

Arguments MkRelatorio {A} linhas totalGeral.
Arguments linhas {A} r.
Arguments totalGeral {A} r.

(** The variables of a report loop: the list of rows built so far and the
    two running grand totals. *)
Record Acumulado (A : Type) : Type := MkAcumulado
  { lista : list A;
    totalGeralReceitas : Z;
    totalGeralDespesas : Z }.

Arguments MkAcumulado {A} lista totalGeralReceitas totalGeralDespesas.
Arguments lista {A} a.
Arguments totalGeralReceitas {A} a.
Arguments totalGeralDespesas {A} a.

Definition GetTotaisPorPessoa (ctx : AppDbContext)
  : Talvez (Relatorio TotaisPessoa.t) :=
  let pessoas := Pessoas ctx in
  fim <-
    foreach pessoas (MkAcumulado [] 0 0)
      (fun ac pessoa =>
         let transacoes := TransacoesDaPessoa ctx pessoa in
         totalReceitas <-
           Sum Transacao.Valor
             (Where (fun t => (Transacao.Tipo t =? "Receita")%string)
                transacoes) ;;
         totalDespesas <-
           Sum Transacao.Valor
             (Where (fun t => (Transacao.Tipo t =? "Despesa")%string)
                transacoes) ;;
         saldo <- Decimal.Subtract totalReceitas totalDespesas ;;
         geralReceitas <- Decimal.Add (totalGeralReceitas ac) totalReceitas ;;
         geralDespesas <- Decimal.Add (totalGeralDespesas ac) totalDespesas ;;
         Retorna
           (MkAcumulado
              (lista ac
                 ++ [TotaisPessoa.Build (Pessoa.Id pessoa) (Pessoa.Nome pessoa)
                       (Pessoa.Idade pessoa) totalReceitas totalDespesas saldo])
              geralReceitas geralDespesas)) ;;
  saldoGeral <-
    Decimal.Subtract (totalGeralReceitas fim) (totalGeralDespesas fim) ;;
  Retorna
    (MkRelatorio (lista fim)
       (TotalGeral.Build (totalGeralReceitas fim) (totalGeralDespesas fim)
          saldoGeral)).

Definition GetTotaisPorCategoria (ctx : AppDbContext)
  : Talvez (Relatorio TotaisCategoria.t) :=
  let categorias := Categorias ctx in
  fim <-
    foreach categorias (MkAcumulado [] 0 0)
      (fun ac categoria =>
         let transacoes := TransacoesDaCategoria ctx categoria in
         totalReceitas <-
           Sum Transacao.Valor
             (Where (fun t => (Transacao.Tipo t =? "Receita")%string)
                transacoes) ;;
         totalDespesas <-
           Sum Transacao.Valor
             (Where (fun t => (Transacao.Tipo t =? "Despesa")%string)
                transacoes) ;;
         saldo <- Decimal.Subtract totalReceitas totalDespesas ;;
         geralReceitas <- Decimal.Add (totalGeralReceitas ac) totalReceitas ;;
         geralDespesas <- Decimal.Add (totalGeralDespesas ac) totalDespesas ;;
         Retorna
           (MkAcumulado
              (lista ac
                 ++ [TotaisCategoria.Build (Categoria.Id categoria)
                       (Categoria.Descricao categoria)
                       (Categoria.Finalidade categoria)
                       totalReceitas totalDespesas saldo])
              geralReceitas geralDespesas)) ;;
  saldoGeral <-
    Decimal.Subtract (totalGeralReceitas fim) (totalGeralDespesas fim) ;;
  Retorna
    (MkRelatorio (lista fim)
       (TotalGeral.Build (totalGeralReceitas fim) (totalGeralDespesas fim)
          saldoGeral)).

End RelatoriosController.

(** ** The form of the transactions (frontend) *)

Module TransacoesManager.

(** [getCategoriasCompativeis], with the state of the component
    ([categorias], [tipo]) as arguments. *)
Definition getCategoriasCompativeis (categorias : list Categoria.t)
    (tipo : string) : list Categoria.t :=
  filter
    (fun cat =>
       if (Categoria.Finalidade cat =? "Ambas")%string then true
       else (Categoria.Finalidade cat =? tipo)%string)
    categorias.

End TransacoesManager.

(** ** Integrity of the database *)

(** Primary keys are unique, and the foreign keys of every transaction
    resolve. *)
Record integro (ctx : AppDbContext) : Prop := MkIntegro
  { chavesPessoas : NoDup (map Pessoa.Id (Pessoas ctx));
    chavesCategorias : NoDup (map Categoria.Id (Categorias ctx));
    referenciaPessoa :
      forall t, In t (Transacoes ctx) ->
                In (Transacao.PessoaId t) (map Pessoa.Id (Pessoas ctx));
    referenciaCategoria :
      forall t, In t (Transacoes ctx) ->
                In (Transacao.CategoriaId t) (map Categoria.Id (Categorias ctx)) }.

(** ** The specification side *)

(** The Admission Checker as the specification words it: five checks, in a
    fixed order, the first violated one decides. *)
Module Admissao.



(** Description non-blank, amount strictly positive, kind one of the two
    literals. *)
Definition entradaValida (t : Transacao.t) : bool :=
  (negb (Texto.IsNullOrWhiteSpace (Transacao.Descricao t))
   && (0 <? Transacao.Valor t)
   && ((Transacao.Tipo t =? "Despesa")%string
       || (Transacao.Tipo t =? "Receita")%string))%bool.




End Admissao.

(** The rejection messages of [PostTransacao]. *)
Definition mensagensDeRejeicao : list string :=
  [TransacoesController.msgDescricao; TransacoesController.msgValor;
   TransacoesController.msgTipo; TransacoesController.msgPessoa;
   TransacoesController.msgMenor; TransacoesController.msgCategoria;
   TransacoesController.msgSoReceitas; TransacoesController.msgSoDespesas].

(** The totals as the specification words them: the sum of the amounts of
    the transactions of a group that have a given kind. *)
Fixpoint totalDe (pertence : Transacao.t -> bool) (tipo : string)
    (ts : list Transacao.t) : Z :=
  match ts with
  | [] => 0
  | t :: r =>
      (if (pertence t && (Transacao.Tipo t =? tipo)%string)%bool
       then Transacao.Valor t else 0)
      + totalDe pertence tipo r
  end.

(** The sum of a figure over the groups of a report. *)
Fixpoint somaSobre {X : Type} (f : X -> Z) (l : list X) : Z :=
  match l with
  | [] => 0
  | x :: r => f x + somaSobre f r
  end.

Definition daPessoa (id : Z) (t : Transacao.t) : bool :=
  Transacao.PessoaId t =? id.

Definition daCategoria (id : Z) (t : Transacao.t) : bool :=
  Transacao.CategoriaId t =? id.

Definition qualquer (t : Transacao.t) : bool := true.

Definition linhaPessoa (ctx : AppDbContext) (p : Pessoa.t)
  : RelatoriosController.TotaisPessoa.t :=
  let receitas := totalDe (daPessoa (Pessoa.Id p)) "Receita" (Transacoes ctx) in
  let despesas := totalDe (daPessoa (Pessoa.Id p)) "Despesa" (Transacoes ctx) in
  RelatoriosController.TotaisPessoa.Build
    (Pessoa.Id p) (Pessoa.Nome p) (Pessoa.Idade p)
    receitas despesas (receitas - despesas).

Definition linhaCategoria (ctx : AppDbContext) (c : Categoria.t)
  : RelatoriosController.TotaisCategoria.t :=
  let receitas :=
    totalDe (daCategoria (Categoria.Id c)) "Receita" (Transacoes ctx) in
  let despesas :=
    totalDe (daCategoria (Categoria.Id c)) "Despesa" (Transacoes ctx) in
  RelatoriosController.TotaisCategoria.Build
    (Categoria.Id c) (Categoria.Descricao c) (Categoria.Finalidade c)
    receitas despesas (receitas - despesas).

(** The reports as the specification words them: one row per entity, and
    as grand totals the sums of the figures of the rows. *)
Definition relatorioPorPessoa (ctx : AppDbContext)
  : RelatoriosController.Relatorio RelatoriosController.TotaisPessoa.t :=
  let receitas :=
    somaSobre
      (fun p => totalDe (daPessoa (Pessoa.Id p)) "Receita" (Transacoes ctx))
      (Pessoas ctx) in
  let despesas :=
    somaSobre
      (fun p => totalDe (daPessoa (Pessoa.Id p)) "Despesa" (Transacoes ctx))
      (Pessoas ctx) in
  RelatoriosController.MkRelatorio
    (map (linhaPessoa ctx) (Pessoas ctx))
    (RelatoriosController.TotalGeral.Build receitas despesas
       (receitas - despesas)).

Definition relatorioPorCategoria (ctx : AppDbContext)
  : RelatoriosController.Relatorio RelatoriosController.TotaisCategoria.t :=
  let receitas :=
    somaSobre
      (fun c => totalDe (daCategoria (Categoria.Id c)) "Receita"
                  (Transacoes ctx))
      (Categorias ctx) in
  let despesas :=
    somaSobre
      (fun c => totalDe (daCategoria (Categoria.Id c)) "Despesa"
                  (Transacoes ctx))
      (Categorias ctx) in
  RelatoriosController.MkRelatorio
    (map (linhaCategoria ctx) (Categorias ctx))
    (RelatoriosController.TotalGeral.Build receitas despesas
       (receitas - despesas)).

(** The domains of the two enumerated string fields. *)
Definition finalidadeValida (s : string) : Prop :=
  s = "Despesa"%string \/ s = "Receita"%string \/ s = "Ambas"%string.

Definition tipoValido (s : string) : Prop :=
  s = "Despesa"%string \/ s = "Receita"%string.

Definition dominios (ctx : AppDbContext) : Prop :=
  (forall c, In c (Categorias ctx) -> finalidadeValida (Categoria.Finalidade c))
  /\ (forall t, In t (Transacoes ctx) -> tipoValido (Transacao.Tipo t)).

(** A category is referenced when some transaction has its key. *)
Definition referenciada (ctx : AppDbContext) (c : Categoria.t) : Prop :=
  exists t, In t (Transacoes ctx) /\ Transacao.CategoriaId t = Categoria.Id c.

(** An orphan category: no transaction has its key. *)
Definition orfa (ctx : AppDbContext) (c : Categoria.t) : bool :=
  negb (existsb (fun t => Transacao.CategoriaId t =? Categoria.Id c)
          (Transacoes ctx)).

(** The business rules, read on a stored row: the transaction has a
    description, a positive amount, a person and a category that exist; it
    is an expense when its person is under 18, and its kind is compatible
    with the purpose of its category. *)
Definition regular (ctx : AppDbContext) (t : Transacao.t) : Prop :=
  Texto.IsNullOrWhiteSpace (Transacao.Descricao t) = false
  /\ 0 < Transacao.Valor t
  /\ exists p c,
      FindPessoa ctx (Transacao.PessoaId t) = Some p
      /\ FindCategoria ctx (Transacao.CategoriaId t) = Some c
      /\ (Transacao.Tipo t = "Receita"%string -> 18 <= Pessoa.Idade p)
      /\ (Transacao.Tipo t = "Despesa"%string ->
          Categoria.Finalidade c <> "Receita"%string)
      /\ (Transacao.Tipo t = "Receita"%string ->
          Categoria.Finalidade c <> "Despesa"%string).

(** The sums of a database are exact at the scale [28 - k]: no amount is
    negative, every amount has at most [28 - k] fractional digits, and the
    amounts of all transactions together fit in 96 bits at that scale.
    Every sum of the reports is then a decimal, and [Decimal.Add] returns
    it without rounding. *)
Definition exato (k : Z) (ctx : AppDbContext) : Prop :=
  0 <= k <= 28
  /\ (forall t, In t (Transacoes ctx) ->
                0 <= Transacao.Valor t /\ Transacao.Valor t mod 10 ^ k = 0)
  /\ somaSobre Transacao.Valor (Transacoes ctx) <= Decimal.MaxMantissa * 10 ^ k.

(** The database a successful [DeletePessoa] leaves. *)
Definition semPessoa (id : Z) (ctx : AppDbContext) : AppDbContext :=
  let transacoes :=
    filter (fun t => negb (Transacao.PessoaId t =? id)) (Transacoes ctx) in
  MkContext
    (filter (fun p => negb (Pessoa.Id p =? id)) (Pessoas ctx))
    (filter
       (fun c =>
          existsb (fun t => Transacao.CategoriaId t =? Categoria.Id c)
            transacoes)
       (Categorias ctx))
    transacoes.

(** ** Example data *)

Module Exemplo.

Definition ana : Pessoa.t := Pessoa.Build 1 "Ana" 15.
Definition bia : Pessoa.t := Pessoa.Build 2 "Bia" 18.
Definition mercado : Categoria.t := Categoria.Build 1 "Mercado" "Despesa".
Definition salario : Categoria.t := Categoria.Build 2 "Salario" "Receita".
Definition diversos : Categoria.t := Categoria.Build 3 "Diversos" "Ambas".
Definition lazer : Categoria.t := Categoria.Build 4 "Lazer" "Ambas".

Definition compra : Transacao.t :=
  Transacao.Build 1 "Compra" 4000 "Despesa" 1 1.
Definition pagamento : Transacao.t :=
  Transacao.Build 2 "Pagamento" 10000 "Receita" 2 2.
Definition cinema : Transacao.t :=
  Transacao.Build 3 "Cinema" 2500 "Despesa" 3 2.

(** Two persons, four categories (one of them, [lazer], without any
    transaction), three transactions; the amounts are in units of
    10^-28. *)
Definition banco : AppDbContext :=
  MkContext [ana; bia] [mercado; salario; diversos; lazer]
    [compra; pagamento; cinema].

(** Two incomes of 7 * 10^28 each for [bia] (a decimal holds at most
    2^96 - 1, about 7.9 * 10^28). *)
Definition heranca : Transacao.t :=
  Transacao.Build 1 "Heranca" (7 * 10 ^ 56) "Receita" 3 2.
Definition premio : Transacao.t :=
  Transacao.Build 2 "Premio" (7 * 10 ^ 56) "Receita" 3 2.

Definition bancoGrande : AppDbContext :=
  MkContext [bia] [diversos] [heranca; premio].

(** An income of 5 * 10^28 and two incomes of 0.5: the sum of the first two
    has 30 digits, and is rounded to 29. *)
Definition caio : Pessoa.t := Pessoa.Build 3 "Caio" 40.
Definition venda : Transacao.t :=
  Transacao.Build 1 "Venda" (5 * 10 ^ 56) "Receita" 2 2.
Definition gorjeta : Transacao.t :=
  Transacao.Build 2 "Gorjeta" (5 * 10 ^ 27) "Receita" 3 2.
Definition troco : Transacao.t :=
  Transacao.Build 3 "Troco" (5 * 10 ^ 27) "Receita" 3 3.

Definition bancoArredondado : AppDbContext :=
  MkContext [bia; caio] [salario; diversos] [venda; gorjeta; troco].

(** The body of a request: the key is not sent. *)
Definition pedido (descricao : string) (valor : Z) (tipo : string)
    (categoriaId pessoaId : Z) : Transacao.t :=
  Transacao.Build 0 descricao valor tipo categoriaId pessoaId.

End Exemplo.

(** ** Lemmas on decimal arithmetic *)

Lemma potencia_positiva (e : Z) : 0 <= e -> 0 < 10 ^ e.
Proof. intro H. apply Z.pow_pos_nonneg; lia. Qed.

Lemma multiplo_potencia (k e n : Z) :
  0 <= e <= k -> n mod 10 ^ k = 0 -> n mod 10 ^ e = 0.
Proof.
  intros He Hn.
  pose proof (potencia_positiva k ltac:(lia)) as Pk.
  pose proof (potencia_positiva e ltac:(lia)) as Pe.
  apply Z.mod_divide in Hn; [| lia].
  apply Z.mod_divide; [lia |].
  apply Z.divide_trans with (10 ^ k); [| exact Hn].
  exists (10 ^ (k - e)). rewrite <- Z.pow_add_r by lia. f_equal. lia.
Qed.

Lemma multiplo_abs (p n : Z) : 0 < p -> n mod p = 0 -> Z.abs n mod p = 0.
Proof.
  intros Hp Hn. apply Z.mod_divide in Hn; [| lia].
  apply Z.mod_divide; [lia |]. apply Z.divide_abs_r. exact Hn.
Qed.

Lemma multiplo_mais (p a b : Z) :
  0 < p -> a mod p = 0 -> b mod p = 0 -> (a + b) mod p = 0.
Proof.
  intros Hp Ha Hb. apply Z.mod_divide in Ha; [| lia].
  apply Z.mod_divide in Hb; [| lia].
  apply Z.mod_divide; [lia |]. apply Z.divide_add_r; assumption.
Qed.

Lemma multiplo_menos (p a b : Z) :
  0 < p -> a mod p = 0 -> b mod p = 0 -> (a - b) mod p = 0.
Proof.
  intros Hp Ha Hb. apply Z.mod_divide in Ha; [| lia].
  apply Z.mod_divide in Hb; [| lia].
  apply Z.mod_divide; [lia |]. apply Z.divide_sub_r; assumption.
Qed.

(** A multiple of [10^e] is its own rounding to a multiple of [10^e]. *)
Lemma arredonda_exato (e n : Z) :
  0 <= e -> n mod 10 ^ e = 0 -> Decimal.arredonda e n = n.
Proof.
  intros He Hn. unfold Decimal.arredonda. cbv zeta.
  pose proof (potencia_positiva e He) as Hp.
  rewrite (multiplo_abs _ _ Hp Hn).
  replace (10 ^ e <? 2 * 0) with false by (symmetry; apply Z.ltb_ge; lia).
  replace (10 ^ e =? 2 * 0) with false by (symmetry; apply Z.eqb_neq; lia).
  cbn [orb andb].
  pose proof (Z.div_mod (Z.abs n) (10 ^ e) ltac:(lia)) as D.
  rewrite (multiplo_abs _ _ Hp Hn) in D.
  rewrite <- Z.mul_assoc.
  replace (Z.abs n / 10 ^ e * 10 ^ e) with (Z.abs n) by lia.
  rewrite Z.mul_comm. apply Z.abs_sgn.
Qed.

(** An exact result that is a decimal of scale [28 - k] is returned as it
    is. *)
Lemma ajusta_exato (k n : Z) (escalas : nat) (e : Z) :
  0 <= e <= k ->
  n mod 10 ^ k = 0 ->
  Z.abs n <= Decimal.MaxMantissa * 10 ^ k ->
  k - e < Z.of_nat escalas ->
  Decimal.ajusta n e escalas = Retorna n.
Proof.
  intros He Hn Hmax. revert e He.
  induction escalas as [| r IH]; intros e He Hr.
  - simpl in Hr. lia.
  - cbn [Decimal.ajusta].
    rewrite (arredonda_exato e n) by
      first [lia | apply (multiplo_potencia k); [lia | exact Hn]].
    destruct (Decimal.cabe e n) eqn:Hc; [reflexivity |].
    assert (e <> k) as Hne.
    { intro Heq. subst e. unfold Decimal.cabe in Hc.
      rewrite (arredonda_exato k n) in Hc by first [lia | exact Hn].
      apply Z.leb_gt in Hc.
      pose proof (potencia_positiva k ltac:(lia)) as Hp.
      assert (Z.abs n / 10 ^ k <= Decimal.MaxMantissa); [| lia].
      apply Z.div_le_upper_bound; lia. }
    apply IH; lia.
Qed.

Lemma Add_exato (k a b : Z) :
  0 <= k <= 28 ->
  a mod 10 ^ k = 0 -> b mod 10 ^ k = 0 ->
  Z.abs (a + b) <= Decimal.MaxMantissa * 10 ^ k ->
  Decimal.Add a b = Retorna (a + b).
Proof.
  intros Hk Ha Hb Hmax. unfold Decimal.Add.
  apply (ajusta_exato k); try lia.
  apply multiplo_mais; [apply potencia_positiva; lia | exact Ha | exact Hb].
Qed.

Lemma Subtract_exato (k a b : Z) :
  0 <= k <= 28 ->
  a mod 10 ^ k = 0 -> b mod 10 ^ k = 0 ->
  Z.abs (a - b) <= Decimal.MaxMantissa * 10 ^ k ->
  Decimal.Subtract a b = Retorna (a - b).
Proof.
  intros Hk Ha Hb Hmax. unfold Decimal.Subtract.
  apply (ajusta_exato k); try lia.
  apply multiplo_menos; [apply potencia_positiva; lia | exact Ha | exact Hb].
Qed.
(** ** Lemmas on the LINQ operators and on lookup *)

Section Linq.

Context {A : Type}.



(** A sum of non-negative decimals of scale [28 - k] that fits in 96 bits
    at that scale: every partial sum does, and no addition rounds. *)
Lemma foreach_soma (k : Z) (f : A -> Z) (l : list A) (a : Z) :
  0 <= k <= 28 ->
  (forall x, In x l -> 0 <= f x /\ f x mod 10 ^ k = 0) ->
  0 <= a -> a mod 10 ^ k = 0 ->
  a + somaSobre f l <= Decimal.MaxMantissa * 10 ^ k ->
  foreach l a (fun sum x => Decimal.Add sum (f x))
  = Retorna (a + somaSobre f l).
Proof.
  intros Hk. revert a.
  induction l as [| x l IH]; intros a Hf Ha Hm Hmax; cbn [foreach somaSobre].
  - f_equal. lia.
  - destruct (Hf x (or_introl eq_refl)) as [Hx Hxm].
    assert (Hl : forall y, In y l -> 0 <= f y /\ f y mod 10 ^ k = 0)
      by (intros y Hy; apply Hf; right; exact Hy).
    assert (Hs : 0 <= somaSobre f l).
    { clear - Hl. induction l as [| y l IH]; simpl; [lia |].
      destruct (Hl y (or_introl eq_refl)) as [Hy _].
      assert (0 <= somaSobre f l)
        by (apply IH; intros z Hz; apply Hl; right; exact Hz).
      lia. }
    cbn [somaSobre] in Hmax.
    rewrite (Add_exato k) by (try assumption; lia).
    cbn [liga]. rewrite IH; try assumption.
    + f_equal. lia.
    + lia.
    + apply multiplo_mais; [apply potencia_positiva; lia | exact Hm | exact Hxm].
    + lia.
Qed.

Lemma Sum_exato (k : Z) (f : A -> Z) (l : list A) :
  0 <= k <= 28 ->
  (forall x, In x l -> 0 <= f x /\ f x mod 10 ^ k = 0) ->
  somaSobre f l <= Decimal.MaxMantissa * 10 ^ k ->
  Sum f l = Retorna (somaSobre f l).
Proof.
  intros Hk Hf Hmax. unfold Sum.
  rewrite (foreach_soma k); try assumption; try lia.
  - reflexivity.
  - apply Z.mod_0_l. pose proof (potencia_positiva k ltac:(lia)). lia.
Qed.

End Linq.

Lemma somaSobre_Where_totalDe (pertence : Transacao.t -> bool) (tipo : string)
    (ts : list Transacao.t) :
  somaSobre Transacao.Valor
    (Where (fun t => (Transacao.Tipo t =? tipo)%string) (filter pertence ts))
  = totalDe pertence tipo ts.
Proof.
  unfold Where.
  induction ts as [| t ts IH]; simpl.
  - reflexivity.
  - destruct (pertence t); simpl.
    + destruct (Transacao.Tipo t =? tipo)%string; simpl.
      * rewrite IH. reflexivity.
      * exact IH.
    + exact IH.
Qed.

(** A total by kind of a group is a non-negative decimal of the scale of
    the amounts, at most the sum of all amounts. *)
Lemma totalDe_limites (k : Z) (pertence : Transacao.t -> bool) (tipo : string)
    (ts : list Transacao.t) :
  0 <= k ->
  (forall t, In t ts ->
             0 <= Transacao.Valor t /\ Transacao.Valor t mod 10 ^ k = 0) ->
  0 <= totalDe pertence tipo ts <= somaSobre Transacao.Valor ts
  /\ totalDe pertence tipo ts mod 10 ^ k = 0.
Proof.
  intros Hk. pose proof (potencia_positiva k Hk) as Hp.
  induction ts as [| t ts IH]; intro H; simpl.
  - split; [lia |]. apply Z.mod_0_l. lia.
  - destruct (H t (or_introl eq_refl)) as [Ht Htm].
    destruct IH as [IH IHm]; [intros u Hu; apply H; right; exact Hu |].
    destruct (pertence t && (Transacao.Tipo t =? tipo)%string)%bool.
    + split; [lia |]. apply multiplo_mais; assumption.
    + split; [lia |]. exact IHm.
Qed.

Lemma Sum_Where_totalDe (k : Z) (pertence : Transacao.t -> bool)
    (tipo : string) (ts : list Transacao.t) :
  0 <= k <= 28 ->
  (forall t, In t ts ->
             0 <= Transacao.Valor t /\ Transacao.Valor t mod 10 ^ k = 0) ->
  somaSobre Transacao.Valor ts <= Decimal.MaxMantissa * 10 ^ k ->
  Sum Transacao.Valor
    (Where (fun t => (Transacao.Tipo t =? tipo)%string) (filter pertence ts))
  = Retorna (totalDe pertence tipo ts).
Proof.
  intros Hk Hts Hmax.
  rewrite <- somaSobre_Where_totalDe.
  apply (Sum_exato k); [exact Hk | |].
  - intros t Ht. apply Hts. unfold Where in Ht.
    apply filter_In in Ht. destruct Ht as [Ht _].
    apply filter_In in Ht. destruct Ht as [Ht _]. exact Ht.
  - rewrite somaSobre_Where_totalDe.
    pose proof (totalDe_limites k pertence tipo ts ltac:(lia) Hts). lia.
Qed.

Lemma totalDe_ext (f g : Transacao.t -> bool) (tipo : string)
    (ts : list Transacao.t) :
  (forall t, In t ts -> f t = g t) -> totalDe f tipo ts = totalDe g tipo ts.
Proof.
  induction ts as [| t ts IH]; intro H; simpl.
  - reflexivity.
  - rewrite (H t (or_introl eq_refl)).
    rewrite IH by (intros u Hu; apply H; right; exact Hu).
    reflexivity.
Qed.

Lemma totalDe_vazio (f : Transacao.t -> bool) (tipo : string)
    (ts : list Transacao.t) :
  filter f ts = [] -> totalDe f tipo ts = 0.
Proof.
  induction ts as [| t ts IH]; simpl; intro H.
  - reflexivity.
  - destruct (f t); [discriminate |]. simpl. apply IH. exact H.
Qed.

Lemma FindPessoa_Some (ctx : AppDbContext) (id : Z) (p : Pessoa.t) :
  FindPessoa ctx id = Some p -> In p (Pessoas ctx) /\ Pessoa.Id p = id.
Proof.
  unfold FindPessoa. intro H. apply find_some in H.
  destruct H as [Hin Heq]. split; [exact Hin | lia].
Qed.

Lemma FindCategoria_Some (ctx : AppDbContext) (id : Z) (c : Categoria.t) :
  FindCategoria ctx id = Some c -> In c (Categorias ctx) /\ Categoria.Id c = id.
Proof.
  unfold FindCategoria. intro H. apply find_some in H.
  destruct H as [Hin Heq]. split; [exact Hin | lia].
Qed.

Lemma FindPessoa_None (ctx : AppDbContext) (id : Z) :
  FindPessoa ctx id = None <-> ~ In id (map Pessoa.Id (Pessoas ctx)).
Proof.
  unfold FindPessoa. split.
  - intros H Hin. apply in_map_iff in Hin. destruct Hin as [p [Hp Hin]].
    apply (find_none _ _ H) in Hin. lia.
  - intro H. destruct (find _ _) as [p |] eqn:E; [| reflexivity].
    exfalso. apply H. apply find_some in E. destruct E as [Hin Heq].
    apply in_map_iff. exists p. split; [lia | exact Hin].
Qed.

Lemma FindCategoria_None (ctx : AppDbContext) (id : Z) :
  FindCategoria ctx id = None <-> ~ In id (map Categoria.Id (Categorias ctx)).
Proof.
  unfold FindCategoria. split.
  - intros H Hin. apply in_map_iff in Hin. destruct Hin as [c [Hc Hin]].
    apply (find_none _ _ H) in Hin. lia.
  - intro H. destruct (find _ _) as [c |] eqn:E; [| reflexivity].
    exfalso. apply H. apply find_some in E. destruct E as [Hin Heq].
    apply in_map_iff. exists c. split; [lia | exact Hin].
Qed.

(** ** Lemmas on the report loops *)

Section Somas.

Context {X : Type}.

Lemma somaSobre_ext (f g : X -> Z) (l : list X) :
  (forall x, In x l -> f x = g x) -> somaSobre f l = somaSobre g l.
Proof.
  induction l as [| x l IH]; intro H; simpl.
  - reflexivity.
  - rewrite (H x (or_introl eq_refl)).
    rewrite IH by (intros y Hy; apply H; right; exact Hy).
    reflexivity.
Qed.

Lemma somaSobre_zero (l : list X) : somaSobre (fun _ => 0) l = 0.
Proof. induction l as [| x l IH]; simpl; [reflexivity | exact IH]. Qed.

Lemma somaSobre_mais (f g : X -> Z) (l : list X) :
  somaSobre (fun x => f x + g x) l = somaSobre f l + somaSobre g l.
Proof. induction l as [| x l IH]; simpl; [reflexivity | rewrite IH; lia]. Qed.

Lemma somaSobre_multiplo (p : Z) (f : X -> Z) (l : list X) :
  0 < p -> (forall x, In x l -> f x mod p = 0) -> somaSobre f l mod p = 0.
Proof.
  intros Hp. induction l as [| x l IH]; intro H; simpl.
  - apply Z.mod_0_l. lia.
  - apply multiplo_mais; [exact Hp | apply H; left; reflexivity |].
    apply IH. intros y Hy. apply H. right. exact Hy.
Qed.

Variable chave : X -> Z.

(** Exactly one group has a given key, when keys are unique. *)
Lemma somaSobre_indicador (k v : Z) (l : list X) :
  NoDup (map chave l) -> In k (map chave l) ->
  somaSobre (fun x => if k =? chave x then v else 0) l = v.
Proof.
  induction l as [| x l IH]; simpl; intros Hnd Hin.
  - contradiction.
  - inversion Hnd as [| y ys Hnotin Hnd']; subst.
    destruct (Z.eqb_spec k (chave x)) as [Heq | Hneq].
    + rewrite (somaSobre_ext _ (fun _ => 0)).
      * rewrite somaSobre_zero. lia.
      * intros y Hy. destruct (Z.eqb_spec k (chave y)) as [Hk |]; [| reflexivity].
        exfalso. apply Hnotin. rewrite <- Heq, Hk. apply in_map. exact Hy.
    + destruct Hin as [Hx | Hin]; [congruence |].
      rewrite IH by assumption. lia.
Qed.

Variable fk : Transacao.t -> Z.

(** Summing the per-group totals gives the total over all transactions,
    when every transaction belongs to exactly one group. *)
Lemma somaSobre_grupos (tipo : string) (l : list X) (ts : list Transacao.t) :
  NoDup (map chave l) ->
  (forall t, In t ts -> In (fk t) (map chave l)) ->
  somaSobre (fun x => totalDe (fun t => fk t =? chave x) tipo ts) l
  = totalDe qualquer tipo ts.
Proof.
  intros Hnd. induction ts as [| t ts IH]; intro Href; simpl.
  - apply somaSobre_zero.
  - rewrite somaSobre_mais.
    rewrite IH by (intros u Hu; apply Href; right; exact Hu).
    f_equal.
    destruct (Transacao.Tipo t =? tipo)%string.
    + rewrite (somaSobre_ext _
                 (fun x => if fk t =? chave x then Transacao.Valor t else 0)).
      * apply somaSobre_indicador; [exact Hnd |].
        apply Href. left. reflexivity.
      * intros x _. rewrite andb_true_r. reflexivity.
    + rewrite (somaSobre_ext _ (fun _ => 0)).
      * apply somaSobre_zero.
      * intros x _. rewrite andb_false_r. reflexivity.
Qed.

(** With unique keys, the per-group totals of non-negative amounts sum to
    at most the total over all transactions. *)
Lemma somaSobre_indicador_le (k v : Z) (l : list X) :
  NoDup (map chave l) -> 0 <= v ->
  0 <= somaSobre (fun x => if k =? chave x then v else 0) l <= v.
Proof.
  intros Hnd Hv.
  destruct (in_dec Z.eq_dec k (map chave l)) as [Hin | Hout].
  - rewrite somaSobre_indicador by assumption. lia.
  - rewrite (somaSobre_ext _ (fun _ => 0)).
    + rewrite somaSobre_zero. lia.
    + intros y Hy. destruct (Z.eqb_spec k (chave y)) as [Hk |]; [| reflexivity].
      exfalso. apply Hout. rewrite Hk. apply in_map. exact Hy.
Qed.

Lemma somaSobre_grupos_le (tipo : string) (l : list X) (ts : list Transacao.t) :
  NoDup (map chave l) ->
  (forall t, In t ts -> 0 <= Transacao.Valor t) ->
  0 <= somaSobre (fun x => totalDe (fun t => fk t =? chave x) tipo ts) l
    <= totalDe qualquer tipo ts.
Proof.
  intros Hnd. induction ts as [| t ts IH]; intro Hpos; simpl.
  - rewrite somaSobre_zero. lia.
  - rewrite somaSobre_mais.
    assert (IH' := IH (fun u Hu => Hpos u (or_intror Hu))).
    assert (Ht := Hpos t (or_introl eq_refl)).
    destruct (Transacao.Tipo t =? tipo)%string.
    + rewrite (somaSobre_ext _
                 (fun x => if fk t =? chave x then Transacao.Valor t else 0))
        by (intros x _; rewrite andb_true_r; reflexivity).
      pose proof (somaSobre_indicador_le (fk t) (Transacao.Valor t) l Hnd Ht).
      lia.
    + rewrite (somaSobre_ext _ (fun _ => 0))
        by (intros x _; rewrite andb_false_r; reflexivity).
      rewrite somaSobre_zero. lia.
Qed.

End Somas.


Section Lacos.

Import RelatoriosController.

Context {X A : Type}.
Variables (linha : X -> A) (receitas despesas : X -> Z).

(** The shape both report loops have, when every running total is a
    decimal of scale [28 - k]. *)
Lemma laco_relatorio (k : Z) (corpo : Acumulado A -> X -> Talvez (Acumulado A))
    (l : list X) (ac : Acumulado A) :
  0 <= k <= 28 ->
  (forall a x,
      In x l ->
      corpo a x
      = (geralReceitas <- Decimal.Add (totalGeralReceitas a) (receitas x) ;;
         geralDespesas <- Decimal.Add (totalGeralDespesas a) (despesas x) ;;
         Retorna
           (MkAcumulado (lista a ++ [linha x]) geralReceitas geralDespesas))) ->
  (forall x, In x l ->
             (0 <= receitas x /\ receitas x mod 10 ^ k = 0)
             /\ (0 <= despesas x /\ despesas x mod 10 ^ k = 0)) ->
  0 <= totalGeralReceitas ac -> totalGeralReceitas ac mod 10 ^ k = 0 ->
  0 <= totalGeralDespesas ac -> totalGeralDespesas ac mod 10 ^ k = 0 ->
  totalGeralReceitas ac + somaSobre receitas l
    <= Decimal.MaxMantissa * 10 ^ k ->
  totalGeralDespesas ac + somaSobre despesas l
    <= Decimal.MaxMantissa * 10 ^ k ->
  foreach l ac corpo
  = Retorna
      (MkAcumulado (lista ac ++ map linha l)
         (totalGeralReceitas ac + somaSobre receitas l)
         (totalGeralDespesas ac + somaSobre despesas l)).
Proof.
  intros Hk. pose proof (potencia_positiva k ltac:(lia)) as Hp.
  revert ac.
  induction l as [| x l IH]; intros ac Hcorpo Hl Hr Hrm Hd Hdm Hrmax Hdmax;
    cbn [foreach somaSobre map] in *.
  - destruct ac as [li r d]; cbn in *. rewrite app_nil_r.
    do 2 f_equal; lia.
  - destruct (Hl x (or_introl eq_refl)) as [[Hx Hxm] [Hy Hym]].
    assert (Hl' : forall y, In y l ->
                            (0 <= receitas y /\ receitas y mod 10 ^ k = 0)
                            /\ (0 <= despesas y /\ despesas y mod 10 ^ k = 0))
      by (intros y Hin; apply Hl; right; exact Hin).
    assert (Hsr : 0 <= somaSobre receitas l /\ 0 <= somaSobre despesas l).
    { clear - Hl'. induction l as [| y l IH]; cbn [somaSobre]; [lia |].
      destruct (Hl' y (or_introl eq_refl)) as [[Hy _] [Hz _]].
      destruct IH as [IH1 IH2];
        [intros z Hin; apply Hl'; right; exact Hin |]. lia. }
    rewrite Hcorpo by (left; reflexivity).
    rewrite (Add_exato k) by (try assumption; lia). cbn [liga].
    rewrite (Add_exato k) by (try assumption; lia). cbn [liga].
    rewrite IH; cbn [lista totalGeralReceitas totalGeralDespesas];
      try assumption; try lia.
    + rewrite <- app_assoc. cbn [app]. do 2 f_equal; lia.
    + intros a y Hin. apply Hcorpo. right. exact Hin.
    + apply multiplo_mais; assumption.
    + apply multiplo_mais; assumption.
Qed.

End Lacos.

Lemma diferenca_limitada (a b m : Z) :
  0 <= a <= m -> 0 <= b <= m -> Z.abs (a - b) <= m.
Proof. lia. Qed.

Lemma exato_totalDe (k : Z) (ctx : AppDbContext)
    (pertence : Transacao.t -> bool) (tipo : string) :
  exato k ctx ->
  (0 <= totalDe pertence tipo (Transacoes ctx)
   /\ totalDe pertence tipo (Transacoes ctx) mod 10 ^ k = 0)
  /\ totalDe pertence tipo (Transacoes ctx) <= Decimal.MaxMantissa * 10 ^ k.
Proof.
  intros [Hk [Hts Hmax]].
  pose proof (totalDe_limites k pertence tipo (Transacoes ctx) ltac:(lia) Hts).
  repeat split; try tauto; lia.
Qed.

(** The totals of one group are exact: the two sums and their
    difference. *)
Lemma totais_do_grupo (k : Z) (ctx : AppDbContext)
    (pertence : Transacao.t -> bool) {B : Type}
    (resto : Z -> Z -> Z -> Talvez B) :
  exato k ctx ->
  (totalReceitas <-
     Sum Transacao.Valor
       (Where (fun t => (Transacao.Tipo t =? "Receita")%string)
          (filter pertence (Transacoes ctx))) ;;
   totalDespesas <-
     Sum Transacao.Valor
       (Where (fun t => (Transacao.Tipo t =? "Despesa")%string)
          (filter pertence (Transacoes ctx))) ;;
   saldo <- Decimal.Subtract totalReceitas totalDespesas ;;
   resto totalReceitas totalDespesas saldo)
  = resto (totalDe pertence "Receita" (Transacoes ctx))
      (totalDe pertence "Despesa" (Transacoes ctx))
      (totalDe pertence "Receita" (Transacoes ctx)
       - totalDe pertence "Despesa" (Transacoes ctx)).
Proof.
  intro He.
  destruct (exato_totalDe k ctx pertence "Receita" He) as [[Hr Hrm] Hrmax].
  destruct (exato_totalDe k ctx pertence "Despesa" He) as [[Hd Hdm] Hdmax].
  destruct He as [Hk [Hts Hmax]].
  rewrite !(Sum_Where_totalDe k) by assumption. cbn [liga].
  rewrite (Subtract_exato k); try assumption.
  - reflexivity.
  - apply diferenca_limitada; lia.
Qed.

Lemma GetTotaisPorPessoa_eq (k : Z) (ctx : AppDbContext) :
  exato k ctx ->
  NoDup (map Pessoa.Id (Pessoas ctx)) ->
  RelatoriosController.GetTotaisPorPessoa ctx
  = Retorna (relatorioPorPessoa ctx).
Proof.
  intros He Hnd.
  assert (He' := He). destruct He' as [Hk [Hts Hmax]].
  pose proof (potencia_positiva k ltac:(lia)) as Hp.
  pose proof (totalDe_limites k qualquer "Receita" (Transacoes ctx)
                ltac:(lia) Hts) as [QR _].
  pose proof (totalDe_limites k qualquer "Despesa" (Transacoes ctx)
                ltac:(lia) Hts) as [QD _].
  pose proof (somaSobre_grupos_le Pessoa.Id Transacao.PessoaId "Receita"
                (Pessoas ctx) (Transacoes ctx) Hnd
                (fun t Ht => proj1 (Hts t Ht))) as GR.
  pose proof (somaSobre_grupos_le Pessoa.Id Transacao.PessoaId "Despesa"
                (Pessoas ctx) (Transacoes ctx) Hnd
                (fun t Ht => proj1 (Hts t Ht))) as GD.
  unfold RelatoriosController.GetTotaisPorPessoa, relatorioPorPessoa.
  cbv zeta.
  rewrite (laco_relatorio (linhaPessoa ctx)
             (fun p => totalDe (daPessoa (Pessoa.Id p)) "Receita" (Transacoes ctx))
             (fun p => totalDe (daPessoa (Pessoa.Id p)) "Despesa" (Transacoes ctx))
             k).
  - cbn [liga RelatoriosController.lista
           RelatoriosController.totalGeralReceitas
           RelatoriosController.totalGeralDespesas app].
    rewrite !Z.add_0_l.
    rewrite (Subtract_exato k); try lia.
    + reflexivity.
    + apply somaSobre_multiplo; [exact Hp |].
      intros p _. apply (exato_totalDe k ctx). exact He.
    + apply somaSobre_multiplo; [exact Hp |].
      intros p _. apply (exato_totalDe k ctx). exact He.
    + apply diferenca_limitada; unfold daPessoa; lia.
  - exact Hk.
  - intros a p _. unfold TransacoesDaPessoa.
    rewrite (totais_do_grupo k ctx (daPessoa (Pessoa.Id p))) by exact He.
    reflexivity.
  - intros p _. split; apply (exato_totalDe k ctx); exact He.
  - simpl. lia.
  - apply Z.mod_0_l. lia.
  - simpl. lia.
  - apply Z.mod_0_l. lia.
  - cbn [RelatoriosController.totalGeralReceitas]. unfold daPessoa. lia.
  - cbn [RelatoriosController.totalGeralDespesas]. unfold daPessoa. lia.
Qed.

Lemma GetTotaisPorCategoria_eq (k : Z) (ctx : AppDbContext) :
  exato k ctx ->
  NoDup (map Categoria.Id (Categorias ctx)) ->
  RelatoriosController.GetTotaisPorCategoria ctx
  = Retorna (relatorioPorCategoria ctx).
Proof.
  intros He Hnd.
  assert (He' := He). destruct He' as [Hk [Hts Hmax]].
  pose proof (potencia_positiva k ltac:(lia)) as Hp.
  pose proof (totalDe_limites k qualquer "Receita" (Transacoes ctx)
                ltac:(lia) Hts) as [QR _].
  pose proof (totalDe_limites k qualquer "Despesa" (Transacoes ctx)
                ltac:(lia) Hts) as [QD _].
  pose proof (somaSobre_grupos_le Categoria.Id Transacao.CategoriaId "Receita"
                (Categorias ctx) (Transacoes ctx) Hnd
                (fun t Ht => proj1 (Hts t Ht))) as GR.
  pose proof (somaSobre_grupos_le Categoria.Id Transacao.CategoriaId "Despesa"
                (Categorias ctx) (Transacoes ctx) Hnd
                (fun t Ht => proj1 (Hts t Ht))) as GD.
  unfold RelatoriosController.GetTotaisPorCategoria, relatorioPorCategoria.
  cbv zeta.
  rewrite (laco_relatorio (linhaCategoria ctx)
             (fun c => totalDe (daCategoria (Categoria.Id c)) "Receita" (Transacoes ctx))
             (fun c => totalDe (daCategoria (Categoria.Id c)) "Despesa" (Transacoes ctx))
             k).
  - cbn [liga RelatoriosController.lista
           RelatoriosController.totalGeralReceitas
           RelatoriosController.totalGeralDespesas app].
    rewrite !Z.add_0_l.
    rewrite (Subtract_exato k); try lia.
    + reflexivity.
    + apply somaSobre_multiplo; [exact Hp |].
      intros c _. apply (exato_totalDe k ctx). exact He.
    + apply somaSobre_multiplo; [exact Hp |].
      intros c _. apply (exato_totalDe k ctx). exact He.
    + apply diferenca_limitada; unfold daCategoria; lia.
  - exact Hk.
  - intros a c _. unfold TransacoesDaCategoria.
    rewrite (totais_do_grupo k ctx (daCategoria (Categoria.Id c))) by exact He.
    reflexivity.
  - intros c _. split; apply (exato_totalDe k ctx); exact He.
  - simpl. lia.
  - apply Z.mod_0_l. lia.
  - simpl. lia.
  - apply Z.mod_0_l. lia.
  - cbn [RelatoriosController.totalGeralReceitas]. unfold daCategoria. lia.
  - cbn [RelatoriosController.totalGeralDespesas]. unfold daCategoria. lia.
Qed.
(** ** Lemmas on the deletion of a person *)

Lemma filter_comprimento {A : Type} (f : A -> bool) (l : list A) :
  (List.length (filter f l) + List.length (filter (fun x => negb (f x)) l) = List.length l)%nat.
Proof.
  induction l as [| x l IH]; simpl.
  - reflexivity.
  - destruct (f x); simpl; lia.
Qed.

Lemma orfa_referenciada (ctx : AppDbContext) (c : Categoria.t) :
  orfa ctx c = false <-> referenciada ctx c.
Proof.
  unfold orfa, referenciada. rewrite negb_false_iff, existsb_exists.
  split; intros [t [Hin Ht]]; exists t; (split; [exact Hin | lia]).
Qed.

Lemma laco_categorias (ctx : AppDbContext) (l : list Categoria.t)
    (estado : list Categoria.t * Z) :
  fold_left (PessoasController.passoCategoria ctx) l estado
  = (fst estado ++ filter (orfa ctx) l,
     snd estado + Z.of_nat (List.length (filter (orfa ctx) l))).
Proof.
  revert estado.
  induction l as [| c l IH]; intros [marcadas n]; simpl.
  - rewrite app_nil_r. f_equal. lia.
  - rewrite IH. unfold PessoasController.passoCategoria, Any.
    fold (orfa ctx c). destruct (orfa ctx c); simpl.
    + rewrite <- app_assoc. simpl. f_equal. lia.
    + reflexivity.
Qed.

(** The rows deleted by key are the orphans themselves: being an orphan
    depends on the key only. *)
Lemma marcadas_orfa (ctx : AppDbContext) (l : list Categoria.t)
    (c : Categoria.t) :
  In c l ->
  existsb (fun m => Categoria.Id m =? Categoria.Id c) (filter (orfa ctx) l)
  = orfa ctx c.
Proof.
  intro Hin. destruct (orfa ctx c) eqn:Ho.
  - apply existsb_exists. exists c. split.
    + apply filter_In. split; assumption.
    + apply Z.eqb_refl.
  - destruct (existsb _ _) eqn:E; [| reflexivity].
    apply existsb_exists in E. destruct E as [m [Hm Heq]].
    apply filter_In in Hm. destruct Hm as [_ Hm].
    apply Z.eqb_eq in Heq. unfold orfa in Hm, Ho.
    rewrite Heq in Hm. congruence.
Qed.

Lemma DeletePessoa_sucesso (ctx : AppDbContext) (id : Z) (pessoa : Pessoa.t) :
  FindPessoa ctx id = Some pessoa ->
  let ctx1 := PessoasController.RemovePessoa ctx pessoa in
  PessoasController.DeletePessoa ctx id
  = (Ok (PessoasController.mensagemSucesso
           (Z.of_nat (List.length (filter (orfa ctx1) (Categorias ctx))))),
     MkContext
       (filter (fun p => negb (Pessoa.Id p =? id)) (Pessoas ctx))
       (filter (fun c => negb (orfa ctx1 c)) (Categorias ctx))
       (filter (fun t => negb (Transacao.PessoaId t =? id)) (Transacoes ctx))).
Proof.
  intros Hfind ctx1. unfold PessoasController.DeletePessoa.
  rewrite Hfind. cbv zeta.
  apply FindPessoa_Some in Hfind. destruct Hfind as [_ Hid]. subst id.
  fold ctx1. rewrite laco_categorias. simpl fst. simpl snd.
  unfold PessoasController.RemoveCategorias.
  change (Categorias ctx1) with (Categorias ctx).
  f_equal. f_equal.
  apply filter_ext_in. intros c Hc. f_equal.
  apply marcadas_orfa. exact Hc.
Qed.

(** ** Lemmas on the creation paths *)

Lemma Contains_tiposValidos (s : string) :
  Texto.Contains TransacoesController.tiposValidos s = true <-> tipoValido s.
Proof.
  unfold Texto.Contains, TransacoesController.tiposValidos, tipoValido. simpl.
  rewrite !orb_true_iff, !String.eqb_eq. intuition discriminate.
Qed.

Lemma Contains_finalidadesValidas (s : string) :
  Texto.Contains CategoriasController.finalidadesValidas s = true
  <-> finalidadeValida s.
Proof.
  unfold Texto.Contains, CategoriasController.finalidadesValidas,
    finalidadeValida. simpl.
  rewrite !orb_true_iff, !String.eqb_eq. intuition discriminate.
Qed.

(** What a request for a transaction does: it is rejected with a
    [BadRequest] and nothing is written, or every check passed and the row is
    appended. *)
Lemma PostTransacao_casos (ctx : AppDbContext) (i : Z) (t : Transacao.t) :
  (exists m, TransacoesController.PostTransacao ctx i t = (BadRequest m, ctx))
  \/ (TransacoesController.PostTransacao ctx i t
      = (CreatedAtAction (Transacao.comId i t),
         MkContext (Pessoas ctx) (Categorias ctx)
           (Transacoes ctx ++ [Transacao.comId i t]))
      /\ tipoValido (Transacao.Tipo t)
      /\ In (Transacao.PessoaId t) (map Pessoa.Id (Pessoas ctx))
      /\ In (Transacao.CategoriaId t) (map Categoria.Id (Categorias ctx))).
Proof.
  unfold TransacoesController.PostTransacao.
  destruct (Texto.IsNullOrWhiteSpace _); [left; eexists; reflexivity |].
  destruct (Transacao.Valor t <=? 0); [left; eexists; reflexivity |].
  destruct (Texto.Contains _ _) eqn:Htipo; simpl;
    [| left; eexists; reflexivity].
  destruct (FindPessoa ctx _) as [p |] eqn:Hp; [| left; eexists; reflexivity].
  destruct (_ && _)%bool; [left; eexists; reflexivity |].
  destruct (FindCategoria ctx _) as [c |] eqn:Hc;
    [| left; eexists; reflexivity].
  destruct (_ && _)%bool; [left; eexists; reflexivity |].
  destruct (_ && _)%bool; [left; eexists; reflexivity |].
  right. split; [reflexivity |]. split; [apply Contains_tiposValidos; exact Htipo |].
  apply FindPessoa_Some in Hp. apply FindCategoria_Some in Hc.
  destruct Hp as [Hp Hpi], Hc as [Hc Hci].
  split.
  - rewrite <- Hpi. apply in_map. exact Hp.
  - rewrite <- Hci. apply in_map. exact Hc.
Qed.

Lemma PostCategoria_casos (ctx : AppDbContext) (i : Z) (c : Categoria.t) :
  (exists m, CategoriasController.PostCategoria ctx i c = (BadRequest m, ctx))
  \/ (let linha :=
        Categoria.Build i (Categoria.Descricao c) (Categoria.Finalidade c) in
      CategoriasController.PostCategoria ctx i c
      = (CreatedAtAction linha,
         MkContext (Pessoas ctx) (Categorias ctx ++ [linha]) (Transacoes ctx))
      /\ finalidadeValida (Categoria.Finalidade c)).
Proof.
  unfold CategoriasController.PostCategoria.
  destruct (Texto.IsNullOrWhiteSpace _); [left; eexists; reflexivity |].
  destruct (Texto.Contains _ _) eqn:Hf; simpl; [| left; eexists; reflexivity].
  right. split; [reflexivity | apply Contains_finalidadesValidas; exact Hf].
Qed.

Lemma PostPessoa_casos (ctx : AppDbContext) (i : Z) (p : Pessoa.t) :
  (exists m, PessoasController.PostPessoa ctx i p = (BadRequest m, ctx))
  \/ (let linha := Pessoa.Build i (Pessoa.Nome p) (Pessoa.Idade p) in
      PessoasController.PostPessoa ctx i p
      = (CreatedAtAction linha,
         MkContext (Pessoas ctx ++ [linha]) (Categorias ctx) (Transacoes ctx))).
Proof.
  unfold PessoasController.PostPessoa.
  destruct (Texto.IsNullOrWhiteSpace _); [left; eexists; reflexivity |].
  destruct (Pessoa.Idade p <? 0); [left; eexists; reflexivity |].
  right. reflexivity.
Qed.

Lemma DeletePessoa_ausente (ctx : AppDbContext) (id : Z) :
  FindPessoa ctx id = None ->
  PessoasController.DeletePessoa ctx id = (NotFound "Pessoa não encontrada", ctx).
Proof.
  intro H. unfold PessoasController.DeletePessoa. rewrite H. reflexivity.
Qed.

(** ** Unique keys *)

Lemma NoDup_map_filter {A B : Type} (f : A -> B) (g : A -> bool) (l : list A) :
  NoDup (map f l) -> NoDup (map f (filter g l)).
Proof.
  induction l as [| x l IH]; simpl; intro H.
  - constructor.
  - inversion H as [| y ys Hnotin Hnd]; subst.
    destruct (g x); simpl.
    + constructor; [| apply IH; exact Hnd].
      intro Hin. apply Hnotin. apply in_map_iff in Hin.
      destruct Hin as [z [Hz Hin]]. apply filter_In in Hin.
      apply in_map_iff. exists z. tauto.
    + apply IH. exact Hnd.
Qed.

(** ** The count in the success message can be read back *)

Lemma append_cancela_esq (p a b : string) :
  (p ++ a)%string = (p ++ b)%string -> a = b.
Proof.
  induction p as [| c p IH]; simpl; intro H.
  - exact H.
  - injection H as H. apply IH. exact H.
Qed.

Lemma comprimento_append (a b : string) :
  String.length (a ++ b) = (String.length a + String.length b)%nat.
Proof.
  induction a as [| c a IH]; simpl; [reflexivity | rewrite IH; reflexivity].
Qed.

Lemma append_cancela_dir (s a b : string) :
  (a ++ s)%string = (b ++ s)%string -> a = b.
Proof.
  revert b. induction a as [| c a IH]; intros [| d b] H; simpl in H.
  - reflexivity.
  - apply (f_equal String.length) in H. simpl in H.
    rewrite comprimento_append in H. lia.
  - apply (f_equal String.length) in H. simpl in H.
    rewrite comprimento_append in H. lia.
  - injection H as Hc H. subst d. f_equal. apply IH. exact H.
Qed.

Lemma ToString_inj (a b : Z) : Texto.ToString a = Texto.ToString b -> a = b.
Proof.
  unfold Texto.ToString. intro H.
  apply (f_equal NilEmpty.int_of_string) in H.
  rewrite !NilEmpty.isi in H. injection H as H.
  apply (f_equal Z.of_int) in H. rewrite !DecimalZ.of_to in H. exact H.
Qed.

Lemma mensagemSucesso_inj (a b : Z) :
  PessoasController.mensagemSucesso a = PessoasController.mensagemSucesso b ->
  a = b.
Proof.
  unfold PessoasController.mensagemSucesso. intro H.
  apply append_cancela_esq in H. apply append_cancela_dir in H.
  apply ToString_inj. exact H.
Qed.

(** ** Cascade Deleter *)

(** C1.  When [DeletePessoa] is called with the key of an existing person,
    the transactions that remain are exactly those of the other persons (none
    references the deleted person), the categories that remain are exactly
    those that some remaining transaction references (every orphan is
    deleted, whoever used it before, and no other category is), and the
    person is gone.  The result is [Ok] with the message of the controller,
    in which the number of category rows deleted (the rows before minus the
    rows after) is written in decimal digits; that number is the only one
    whose message is the answer. *)
Theorem DeletePessoa_cascata (ctx : AppDbContext) (id : Z) (pessoa : Pessoa.t) :
  FindPessoa ctx id = Some pessoa ->
  let resultado := PessoasController.DeletePessoa ctx id in
  let ctx' := snd resultado in
  let removidas :=
    Z.of_nat (List.length (Categorias ctx))
    - Z.of_nat (List.length (Categorias ctx')) in
  (forall t, In t (Transacoes ctx')
             <-> In t (Transacoes ctx) /\ Transacao.PessoaId t <> id)
  /\ (forall c, In c (Categorias ctx')
                <-> In c (Categorias ctx) /\ referenciada ctx' c)
  /\ FindPessoa ctx' id = None
  /\ fst resultado
     = Ok ("Pessoa deletada com sucesso. Todas as transações e "
             ++ NilEmpty.string_of_int (Z.to_int removidas)
             ++ " categoria(s) órfã(s) foram removidas.")%string
  /\ (forall n, fst resultado = Ok (PessoasController.mensagemSucesso n) ->
                n = removidas).
Proof.
  intros Hfind resultado ctx' removidas. subst removidas ctx' resultado.
  rewrite (DeletePessoa_sucesso ctx id pessoa Hfind). cbv zeta.
  cbn [fst snd Transacoes Categorias].
  apply FindPessoa_Some in Hfind. destruct Hfind as [_ Hid]. subst id.
  set (ctx1 := PessoasController.RemovePessoa ctx pessoa).
  assert (Href : forall c, referenciada ctx1 c
                           <-> referenciada
                                 (MkContext
                                    (filter (fun p => negb (Pessoa.Id p =? Pessoa.Id pessoa))
                                       (Pessoas ctx))
                                    (filter (fun c => negb (orfa ctx1 c))
                                       (Categorias ctx))
                                    (filter
                                       (fun t => negb (Transacao.PessoaId t
                                                       =? Pessoa.Id pessoa))
                                       (Transacoes ctx))) c)
    by (intro c; reflexivity).
  assert (Hn : Z.of_nat (List.length (filter (orfa ctx1) (Categorias ctx)))
               = Z.of_nat (List.length (Categorias ctx))
                 - Z.of_nat
                     (List.length
                        (filter (fun c => negb (orfa ctx1 c)) (Categorias ctx)))).
  { pose proof (filter_comprimento (orfa ctx1) (Categorias ctx)). lia. }
  split; [| split; [| split; [| split]]].
  - intro t. split.
    + intro H. apply filter_In in H. destruct H as [Hin H].
      apply negb_true_iff in H. split; [exact Hin | lia].
    + intros [Hin Hdif]. apply filter_In. split; [exact Hin |].
      apply negb_true_iff. lia.
  - intro c. split.
    + intro H. apply filter_In in H. destruct H as [Hin H].
      split; [exact Hin |].
      apply Href. apply orfa_referenciada. apply negb_true_iff. exact H.
    + intros [Hin Hr]. apply filter_In. split; [exact Hin |].
      apply negb_true_iff. apply orfa_referenciada. apply Href. exact Hr.
  - apply FindPessoa_None. simpl. intro Hin. apply in_map_iff in Hin.
    destruct Hin as [p [Hp Hin]]. apply filter_In in Hin.
    destruct Hin as [_ Hin]. apply negb_true_iff in Hin. lia.
  - rewrite <- Hn. reflexivity.
  - intros n H. rewrite <- Hn. symmetry.
    apply mensagemSucesso_inj. congruence.
Qed.

Lemma DeletePessoa_cascata_exemplo :
  FindPessoa Exemplo.banco 2 = Some Exemplo.bia
  /\ FindPessoa (snd (PessoasController.DeletePessoa Exemplo.banco 2)) 2 = None
  /\ fst (PessoasController.DeletePessoa Exemplo.banco 2)
     = Ok "Pessoa deletada com sucesso. Todas as transações e 3 categoria(s) órfã(s) foram removidas."
  /\ (forall n,
         fst (PessoasController.DeletePessoa Exemplo.banco 2)
         = Ok (PessoasController.mensagemSucesso n) ->
         n = 3).
Proof.
  split; [reflexivity |].
  pose proof (DeletePessoa_cascata Exemplo.banco 2 Exemplo.bia eq_refl) as H.
  cbv zeta in H. destruct H as [_ [_ [Hnone [Hres Hn]]]].
  split; [exact Hnone |]. split; [exact Hres | exact Hn].
Defined.

(** C8.  [DeletePessoa] with a key that no person has answers [NotFound]
    with the message of the missing person and leaves the three tables as
    they were: no category is swept, orphan or not.  That is the case of
    the key of a person that was deleted before: after a deletion, the
    same request finds nobody. *)
Theorem DeletePessoa_inexistente :
  (forall (ctx : AppDbContext) (id : Z),
      ~ In id (map Pessoa.Id (Pessoas ctx)) ->
      PessoasController.DeletePessoa ctx id
      = (NotFound "Pessoa não encontrada", ctx))
  /\ (forall (ctx : AppDbContext) (id : Z),
         let ctx' := snd (PessoasController.DeletePessoa ctx id) in
         PessoasController.DeletePessoa ctx' id
         = (NotFound "Pessoa não encontrada", ctx')).
Proof.
  split.
  - intros ctx id H. apply DeletePessoa_ausente. apply FindPessoa_None. exact H.
  - intros ctx id ctx'. apply DeletePessoa_ausente. subst ctx'.
    destruct (FindPessoa ctx id) as [pessoa |] eqn:Hfind.
    + rewrite (DeletePessoa_sucesso ctx id pessoa Hfind). cbv zeta.
      apply FindPessoa_None. simpl. intro Hin. apply in_map_iff in Hin.
      destruct Hin as [p [Hp Hin]]. apply filter_In in Hin.
      destruct Hin as [_ Hin]. apply negb_true_iff in Hin. lia.
    + rewrite (DeletePessoa_ausente ctx id Hfind). exact Hfind.
Qed.

Lemma DeletePessoa_inexistente_exemplo :
  ~ In 9 (map Pessoa.Id (Pessoas Exemplo.banco))
  /\ PessoasController.DeletePessoa Exemplo.banco 9
     = (NotFound "Pessoa não encontrada", Exemplo.banco)
  /\ orfa Exemplo.banco Exemplo.lazer = true
  /\ In Exemplo.lazer
       (Categorias (snd (PessoasController.DeletePessoa Exemplo.banco 9))).
Proof.
  assert (H : ~ In 9 (map Pessoa.Id (Pessoas Exemplo.banco)))
    by (simpl; intros [H | [H | []]]; discriminate H).
  split; [exact H |].
  pose proof (proj1 DeletePessoa_inexistente Exemplo.banco 9 H) as E.
  split; [exact E |]. split; [reflexivity |].
  rewrite E. simpl. auto.
Defined.

(** ** Admission Checker *)



Lemma entradaValida_verificacoes (t : Transacao.t) :
  Admissao.entradaValida t = true ->
  Texto.IsNullOrWhiteSpace (Transacao.Descricao t) = false
  /\ (Transacao.Valor t <=? 0) = false
  /\ Texto.Contains TransacoesController.tiposValidos (Transacao.Tipo t) = true.
Proof.
  unfold Admissao.entradaValida. rewrite !andb_true_iff, negb_true_iff.
  intros [[Hd Hv] Ht]. split; [exact Hd |]. split.
  - apply Z.leb_gt. apply Z.ltb_lt. exact Hv.
  - apply Contains_tiposValidos. unfold tipoValido.
    apply orb_true_iff in Ht. rewrite !String.eqb_eq in Ht. exact Ht.
Qed.

(** After the first check, what is left of [PostTransacao]. *)
Lemma PostTransacao_valida (ctx : AppDbContext) (i : Z) (t : Transacao.t) :
  Admissao.entradaValida t = true ->
  TransacoesController.PostTransacao ctx i t
  = match FindPessoa ctx (Transacao.PessoaId t) with
    | None => (BadRequest TransacoesController.msgPessoa, ctx)
    | Some pessoa =>
        if ((Pessoa.Idade pessoa <? 18)
            && (Transacao.Tipo t =? "Receita")%string)%bool
        then (BadRequest TransacoesController.msgMenor, ctx)
        else
          match FindCategoria ctx (Transacao.CategoriaId t) with
          | None => (BadRequest TransacoesController.msgCategoria, ctx)
          | Some categoria =>
              if ((Transacao.Tipo t =? "Despesa")%string
                  && (Categoria.Finalidade categoria =? "Receita")%string)%bool
              then (BadRequest TransacoesController.msgSoReceitas, ctx)
              else if ((Transacao.Tipo t =? "Receita")%string
                       && (Categoria.Finalidade categoria =? "Despesa")%string)%bool
              then (BadRequest TransacoesController.msgSoDespesas, ctx)
              else
                (CreatedAtAction (Transacao.comId i t),
                 MkContext (Pessoas ctx) (Categorias ctx)
                   (Transacoes ctx ++ [Transacao.comId i t]))
          end
    end.
Proof.
  intro H. apply entradaValida_verificacoes in H.
  destruct H as [Hd [Hv Ht]].
  unfold TransacoesController.PostTransacao. rewrite Hd, Hv, Ht. reflexivity.
Qed.

Lemma rejeicao_mensagem (ctx : AppDbContext) (i : Z) (t : Transacao.t) :
  (exists m, In m mensagensDeRejeicao
             /\ TransacoesController.PostTransacao ctx i t = (BadRequest m, ctx))
  \/ (exists linha, fst (TransacoesController.PostTransacao ctx i t)
                    = CreatedAtAction linha).
Proof.
  unfold TransacoesController.PostTransacao, mensagensDeRejeicao.
  repeat match goal with
         | |- context [if ?b then _ else _] => destruct b
         | |- context [match ?x with Some _ => _ | None => _ end] => destruct x
         end;
    try (left; eexists; split; [| reflexivity]; simpl; tauto).
  all: right; eexists; reflexivity.
Qed.

Ltac outra_mensagem :=
  let H := fresh "H" in
  intro H; vm_compute in H; discriminate H.

Lemma mensagens_distintas : NoDup mensagensDeRejeicao.
Proof.
  unfold mensagensDeRejeicao.
  repeat (constructor;
          [ simpl; intro H;
            repeat (destruct H as [H | H];
                    [apply String.eqb_eq in H; vm_compute in H; discriminate H |]);
            exact H
          | ]).
  constructor.
Qed.

(** C3, as the code has it.  A request of kind ["Receita"] for a person
    younger than 18 is always rejected and writes nothing; the message is
    the one of the minor rule, whatever the category (existing or not,
    compatible or not), when the description is not blank and the amount is
    positive.  For a person aged 18 or more (18 included) the message of the
    minor rule is never the answer. *)
Theorem PostTransacao_menor :
  (forall (ctx : AppDbContext) (i : Z) (t : Transacao.t) (p : Pessoa.t),
      FindPessoa ctx (Transacao.PessoaId t) = Some p ->
      Pessoa.Idade p < 18 ->
      Transacao.Tipo t = "Receita"%string ->
      (exists m, TransacoesController.PostTransacao ctx i t = (BadRequest m, ctx))
      /\ (Admissao.entradaValida t = true ->
          TransacoesController.PostTransacao ctx i t
          = (BadRequest TransacoesController.msgMenor, ctx)))
  /\ (forall (ctx : AppDbContext) (i : Z) (t : Transacao.t) (p : Pessoa.t),
         FindPessoa ctx (Transacao.PessoaId t) = Some p ->
         18 <= Pessoa.Idade p ->
         fst (TransacoesController.PostTransacao ctx i t)
         <> BadRequest TransacoesController.msgMenor).
Proof.
  split.
  - intros ctx i t p Hp Hidade Htipo.
    assert (Hmenor : ((Pessoa.Idade p <? 18)
                      && (Transacao.Tipo t =? "Receita")%string)%bool = true).
    { apply andb_true_iff. split.
      - apply Z.ltb_lt. exact Hidade.
      - apply String.eqb_eq. exact Htipo. }
    split.
    + unfold TransacoesController.PostTransacao. rewrite Hp, Hmenor.
      destruct (Texto.IsNullOrWhiteSpace _); [eexists; reflexivity |].
      destruct (Transacao.Valor t <=? 0); [eexists; reflexivity |].
      destruct (negb _); eexists; reflexivity.
    + intro Hval. rewrite (PostTransacao_valida ctx i t Hval), Hp, Hmenor.
      reflexivity.
  - intros ctx i t p Hp Hidade.
    assert (Hmaior : (Pessoa.Idade p <? 18) = false)
      by (apply Z.ltb_ge; exact Hidade).
    unfold TransacoesController.PostTransacao. rewrite Hp, Hmaior.
    cbn [andb].
    repeat match goal with
           | |- context [if ?b then _ else _] => destruct b
           | |- context [match ?x with Some _ => _ | None => _ end] => destruct x
           end;
      cbn [fst]; try discriminate; outra_mensagem.
Qed.

Lemma PostTransacao_menor_exemplo :
  FindPessoa Exemplo.banco 1 = Some Exemplo.ana
  /\ TransacoesController.PostTransacao Exemplo.banco 4
       (Exemplo.pedido "Mesada" 5000 "Receita" 9 1)
     = (BadRequest TransacoesController.msgMenor, Exemplo.banco)
  /\ FindPessoa Exemplo.banco 2 = Some Exemplo.bia
  /\ fst (TransacoesController.PostTransacao Exemplo.banco 4
            (Exemplo.pedido "Salario" 5000 "Receita" 2 2))
     <> BadRequest TransacoesController.msgMenor.
Proof.
  split; [reflexivity |]. split.
  - apply (proj1 PostTransacao_menor Exemplo.banco 4
             (Exemplo.pedido "Mesada" 5000 "Receita" 9 1) Exemplo.ana).
    + reflexivity.
    + simpl. lia.
    + reflexivity.
    + reflexivity.
  - split; [reflexivity |].
    apply (proj2 PostTransacao_menor Exemplo.banco 4
             (Exemplo.pedido "Salario" 5000 "Receita" 2 2) Exemplo.bia).
    + reflexivity.
    + simpl. lia.
Defined.

(** C3, as it is stated, fails: for the person [ana], aged 15, a request of
    kind ["Receita"] with an empty description is rejected with the message
    of the description, not with the one of the minor rule. *)
Lemma PostTransacao_menor_descricao_vazia :
  FindPessoa Exemplo.banco 1 = Some Exemplo.ana
  /\ Pessoa.Idade Exemplo.ana < 18
  /\ Transacao.Tipo (Exemplo.pedido "" 5000 "Receita" 3 1) = "Receita"%string
  /\ fst (TransacoesController.PostTransacao Exemplo.banco 4
            (Exemplo.pedido "" 5000 "Receita" 3 1))
     = BadRequest TransacoesController.msgDescricao
  /\ fst (TransacoesController.PostTransacao Exemplo.banco 4
            (Exemplo.pedido "" 5000 "Receita" 3 1))
     <> BadRequest TransacoesController.msgMenor.
Proof.
  split; [reflexivity |]. split; [simpl; lia |]. split; [reflexivity |].
  split; [reflexivity |]. simpl. outra_mensagem.
Qed.

(** C4, as the code has it.  For an existing person and an existing
    category, and a request whose description is not blank and whose amount
    is positive: kind ["Despesa"] against a category for ["Receita"] is
    rejected with the message of the categories reserved to income; kind
    ["Receita"] against a category for ["Despesa"] is rejected with the
    message of the categories reserved to expenses when the person is 18 or
    older.  A category of purpose ["Ambas"] never yields either message,
    whatever the request. *)
Theorem PostTransacao_compatibilidade :
  (forall (ctx : AppDbContext) (i : Z) (t : Transacao.t)
          (p : Pessoa.t) (c : Categoria.t),
      Admissao.entradaValida t = true ->
      FindPessoa ctx (Transacao.PessoaId t) = Some p ->
      FindCategoria ctx (Transacao.CategoriaId t) = Some c ->
      Transacao.Tipo t = "Despesa"%string ->
      Categoria.Finalidade c = "Receita"%string ->
      TransacoesController.PostTransacao ctx i t
      = (BadRequest TransacoesController.msgSoReceitas, ctx))
  /\ (forall (ctx : AppDbContext) (i : Z) (t : Transacao.t)
             (p : Pessoa.t) (c : Categoria.t),
         Admissao.entradaValida t = true ->
         FindPessoa ctx (Transacao.PessoaId t) = Some p ->
         FindCategoria ctx (Transacao.CategoriaId t) = Some c ->
         Transacao.Tipo t = "Receita"%string ->
         Categoria.Finalidade c = "Despesa"%string ->
         18 <= Pessoa.Idade p ->
         TransacoesController.PostTransacao ctx i t
         = (BadRequest TransacoesController.msgSoDespesas, ctx))
  /\ (forall (ctx : AppDbContext) (i : Z) (t : Transacao.t) (c : Categoria.t),
         FindCategoria ctx (Transacao.CategoriaId t) = Some c ->
         Categoria.Finalidade c = "Ambas"%string ->
         fst (TransacoesController.PostTransacao ctx i t)
         <> BadRequest TransacoesController.msgSoReceitas
         /\ fst (TransacoesController.PostTransacao ctx i t)
            <> BadRequest TransacoesController.msgSoDespesas).
Proof.
  split; [| split].
  - intros ctx i t p c Hval Hp Hc Htipo Hfin.
    rewrite (PostTransacao_valida ctx i t Hval), Hp, Hc, Htipo, Hfin.
    rewrite andb_false_r. reflexivity.
  - intros ctx i t p c Hval Hp Hc Htipo Hfin Hidade.
    rewrite (PostTransacao_valida ctx i t Hval), Hp, Hc, Htipo, Hfin.
    replace (Pessoa.Idade p <? 18) with false
      by (symmetry; apply Z.ltb_ge; exact Hidade).
    reflexivity.
  - intros ctx i t c Hc Hfin.
    unfold TransacoesController.PostTransacao. rewrite Hc, Hfin.
    cbn [String.eqb Ascii.eqb Bool.eqb]. rewrite !andb_false_r.
    split;
      repeat match goal with
             | |- context [if ?b then _ else _] => destruct b
             | |- context [match ?x with Some _ => _ | None => _ end] =>
                 destruct x
             end;
      cbn [fst]; try discriminate; outra_mensagem.
Qed.

Lemma PostTransacao_compatibilidade_exemplo :
  TransacoesController.PostTransacao Exemplo.banco 4
    (Exemplo.pedido "Feira" 3000 "Despesa" 2 2)
  = (BadRequest TransacoesController.msgSoReceitas, Exemplo.banco)
  /\ TransacoesController.PostTransacao Exemplo.banco 4
       (Exemplo.pedido "Bonus" 3000 "Receita" 1 2)
     = (BadRequest TransacoesController.msgSoDespesas, Exemplo.banco)
  /\ fst (TransacoesController.PostTransacao Exemplo.banco 4
            (Exemplo.pedido "Bonus" 3000 "Receita" 3 2))
     <> BadRequest TransacoesController.msgSoDespesas.
Proof.
  destruct PostTransacao_compatibilidade as [Ha [Hb Hc]].
  split; [| split].
  - apply (Ha Exemplo.banco 4 (Exemplo.pedido "Feira" 3000 "Despesa" 2 2)
             Exemplo.bia Exemplo.salario); reflexivity.
  - apply (Hb Exemplo.banco 4 (Exemplo.pedido "Bonus" 3000 "Receita" 1 2)
             Exemplo.bia Exemplo.mercado);
      first [reflexivity | simpl; lia].
  - apply (Hc Exemplo.banco 4 (Exemplo.pedido "Bonus" 3000 "Receita" 3 2)
             Exemplo.diversos); reflexivity.
Defined.

(** C4, as it is stated, fails: [ana] (aged 15) and the category [mercado]
    (purpose ["Despesa"]) exist, the request is of kind ["Receita"] with a
    description and a positive amount, and the answer is the message of the
    minor rule, not a message of category mismatch. *)
Lemma PostTransacao_compatibilidade_menor :
  FindPessoa Exemplo.banco 1 = Some Exemplo.ana
  /\ FindCategoria Exemplo.banco 1 = Some Exemplo.mercado
  /\ Categoria.Finalidade Exemplo.mercado = "Despesa"%string
  /\ fst (TransacoesController.PostTransacao Exemplo.banco 4
            (Exemplo.pedido "Mesada" 5000 "Receita" 1 1))
     = BadRequest TransacoesController.msgMenor
  /\ fst (TransacoesController.PostTransacao Exemplo.banco 4
            (Exemplo.pedido "Mesada" 5000 "Receita" 1 1))
     <> BadRequest TransacoesController.msgSoDespesas
  /\ fst (TransacoesController.PostTransacao Exemplo.banco 4
            (Exemplo.pedido "Mesada" 5000 "Receita" 1 1))
     <> BadRequest TransacoesController.msgSoReceitas.
Proof.
  repeat (split; [reflexivity |]). split; simpl; outra_mensagem.
Qed.

(** C7, as the code has it.  When the person of a request does not exist,
    the answer is [BadRequest] with the message of the missing person; when
    the person exists, the minor rule does not apply and the category does
    not exist, the answer is [BadRequest] with the message of the missing
    category (both for a request whose description, amount and kind are
    valid); nothing is written.  Every rejection of [PostTransacao] has the
    status 400 of [BadRequest], never the 404 of [NotFound]: the failures
    are told apart by their messages only, which are pairwise distinct. *)
Theorem PostTransacao_referencias :
  (forall (ctx : AppDbContext) (i : Z) (t : Transacao.t),
      Admissao.entradaValida t = true ->
      ~ In (Transacao.PessoaId t) (map Pessoa.Id (Pessoas ctx)) ->
      TransacoesController.PostTransacao ctx i t
      = (BadRequest TransacoesController.msgPessoa, ctx))
  /\ (forall (ctx : AppDbContext) (i : Z) (t : Transacao.t) (p : Pessoa.t),
         Admissao.entradaValida t = true ->
         FindPessoa ctx (Transacao.PessoaId t) = Some p ->
         (18 <= Pessoa.Idade p \/ Transacao.Tipo t = "Despesa"%string) ->
         ~ In (Transacao.CategoriaId t) (map Categoria.Id (Categorias ctx)) ->
         TransacoesController.PostTransacao ctx i t
         = (BadRequest TransacoesController.msgCategoria, ctx))
  /\ (forall (ctx : AppDbContext) (i : Z) (t : Transacao.t),
         StatusCode (fst (TransacoesController.PostTransacao ctx i t)) = 400
         \/ StatusCode (fst (TransacoesController.PostTransacao ctx i t)) = 201)
  /\ NoDup mensagensDeRejeicao.
Proof.
  split; [| split; [| split]].
  - intros ctx i t Hval Hp. apply FindPessoa_None in Hp.
    rewrite (PostTransacao_valida ctx i t Hval), Hp. reflexivity.
  - intros ctx i t p Hval Hp Hmenor Hc. apply FindCategoria_None in Hc.
    rewrite (PostTransacao_valida ctx i t Hval), Hp, Hc.
    replace ((Pessoa.Idade p <? 18) && (Transacao.Tipo t =? "Receita")%string)%bool
      with false; [reflexivity |].
    symmetry. apply andb_false_iff. destruct Hmenor as [H | H].
    + left. apply Z.ltb_ge. exact H.
    + right. rewrite H. reflexivity.
  - intros ctx i t.
    destruct (rejeicao_mensagem ctx i t) as [[m [_ Hm]] | [linha Hl]].
    + left. rewrite Hm. reflexivity.
    + right. rewrite Hl. reflexivity.
  - exact mensagens_distintas.
Qed.

Lemma PostTransacao_referencias_exemplo :
  TransacoesController.PostTransacao Exemplo.banco 4
    (Exemplo.pedido "Feira" 3000 "Despesa" 1 9)
  = (BadRequest TransacoesController.msgPessoa, Exemplo.banco)
  /\ TransacoesController.PostTransacao Exemplo.banco 4
       (Exemplo.pedido "Feira" 3000 "Despesa" 9 1)
     = (BadRequest TransacoesController.msgCategoria, Exemplo.banco).
Proof.
  destruct PostTransacao_referencias as [Ha [Hb _]].
  split.
  - apply (Ha Exemplo.banco 4 (Exemplo.pedido "Feira" 3000 "Despesa" 1 9)).
    + reflexivity.
    + simpl. intros [H | [H | []]]; discriminate H.
  - apply (Hb Exemplo.banco 4 (Exemplo.pedido "Feira" 3000 "Despesa" 9 1)
             Exemplo.ana).
    + reflexivity.
    + reflexivity.
    + right. reflexivity.
    + simpl. intros [H | [H | [H | [H | []]]]]; discriminate H.
Defined.

(** C7, as it is stated, fails: for a person that does not exist, and for a
    category that does not exist, the answer is not a [NotFound]; it is a
    [BadRequest], with the status code of the rejection of an empty
    description. *)
Lemma PostTransacao_referencias_BadRequest :
  ~ In 9 (map Pessoa.Id (Pessoas Exemplo.banco))
  /\ fst (TransacoesController.PostTransacao Exemplo.banco 4
            (Exemplo.pedido "Feira" 3000 "Despesa" 1 9))
     = BadRequest "Pessoa não encontrada"
  /\ fst (TransacoesController.PostTransacao Exemplo.banco 4
            (Exemplo.pedido "Feira" 3000 "Despesa" 1 9))
     <> NotFound "Pessoa não encontrada"
  /\ ~ In 9 (map Categoria.Id (Categorias Exemplo.banco))
  /\ fst (TransacoesController.PostTransacao Exemplo.banco 4
            (Exemplo.pedido "Feira" 3000 "Despesa" 9 1))
     = BadRequest "Categoria não encontrada"
  /\ fst (TransacoesController.PostTransacao Exemplo.banco 4
            (Exemplo.pedido "Feira" 3000 "Despesa" 9 1))
     <> NotFound "Categoria não encontrada"
  /\ StatusCode (fst (TransacoesController.PostTransacao Exemplo.banco 4
                        (Exemplo.pedido "Feira" 3000 "Despesa" 1 9)))
     = StatusCode (fst (TransacoesController.PostTransacao Exemplo.banco 4
                          (Exemplo.pedido "" 3000 "Despesa" 1 1))).
Proof.
  split; [simpl; intros [H | [H | []]]; discriminate H |].
  split; [reflexivity |]. split; [simpl; discriminate |].
  split; [simpl; intros [H | [H | [H | [H | []]]]]; discriminate H |].
  split; [reflexivity |]. split; [simpl; discriminate |].
  reflexivity.
Qed.

(** ** Totals Aggregator *)

Section UmaVez.

Context {X A : Type}.
Variables (chave : X -> Z) (chaveLinha : A -> Z) (linha : X -> A).
Hypothesis chave_linha : forall x, chaveLinha (linha x) = chave x.

(** With unique keys, the row of an entity is the only row of the report
    that has its key. *)
Lemma linha_unica (l : list X) (x : X) :
  NoDup (map chave l) -> In x l ->
  filter (fun r => chaveLinha r =? chave x) (map linha l) = [linha x].
Proof.
  induction l as [| y l IH]; simpl; intros Hnd Hin.
  - contradiction.
  - inversion Hnd as [| k ks Hnotin Hnd']; subst.
    rewrite chave_linha.
    destruct Hin as [Heq | Hin].
    + subst y. rewrite Z.eqb_refl. f_equal.
      assert (Hnone : forall z, In z l ->
                                (chaveLinha (linha z) =? chave x) = false).
      { intros z Hz. rewrite chave_linha. apply Z.eqb_neq. intro Hk.
        apply Hnotin. rewrite <- Hk. apply in_map. exact Hz. }
      clear - Hnone. induction l as [| z l IH]; simpl; [reflexivity |].
      rewrite (Hnone z (or_introl eq_refl)). apply IH.
      intros w Hw. apply Hnone. right. exact Hw.
    + destruct (Z.eqb_spec (chave y) (chave x)) as [Hk | Hk].
      * exfalso. apply Hnotin. rewrite Hk. apply in_map. exact Hin.
      * apply IH; assumption.
Qed.

End UmaVez.

Lemma somaSobre_map {X A : Type} (f : A -> Z) (g : X -> A) (l : list X) :
  somaSobre f (map g l) = somaSobre (fun x => f (g x)) l.
Proof. induction l as [| x l IH]; simpl; [reflexivity | rewrite IH; reflexivity]. Qed.

(** C6.  In a database whose sums are exact and whose keys are unique, both
    reports are returned.  The report by person has one row per person, in
    the order of the table, and the report by category one row per category:
    the row of an entity carries its key and its fields, [totalReceitas] is
    the sum of the amounts of its transactions of kind ["Receita"],
    [totalDespesas] the sum of those of kind ["Despesa"], and [saldo] their
    difference (all of this is what [linhaPessoa] and [linhaCategoria]
    say).  An entity without transactions has the three figures at zero,
    and the row of an entity is the only row with its key. *)
Theorem totais_por_grupo (k : Z) (ctx : AppDbContext) :
  exato k ctx ->
  NoDup (map Pessoa.Id (Pessoas ctx)) ->
  NoDup (map Categoria.Id (Categorias ctx)) ->
  exists porPessoa porCategoria,
    RelatoriosController.GetTotaisPorPessoa ctx = Retorna porPessoa
    /\ RelatoriosController.GetTotaisPorCategoria ctx = Retorna porCategoria
    /\ RelatoriosController.linhas porPessoa
       = map (linhaPessoa ctx) (Pessoas ctx)
    /\ RelatoriosController.linhas porCategoria
       = map (linhaCategoria ctx) (Categorias ctx)
    /\ (forall l, In l (RelatoriosController.linhas porPessoa) ->
                  RelatoriosController.TotaisPessoa.saldo l
                  = RelatoriosController.TotaisPessoa.totalReceitas l
                    - RelatoriosController.TotaisPessoa.totalDespesas l)
    /\ (forall l, In l (RelatoriosController.linhas porCategoria) ->
                  RelatoriosController.TotaisCategoria.saldo l
                  = RelatoriosController.TotaisCategoria.totalReceitas l
                    - RelatoriosController.TotaisCategoria.totalDespesas l)
    /\ (forall p, TransacoesDaPessoa ctx p = [] ->
                  linhaPessoa ctx p
                  = RelatoriosController.TotaisPessoa.Build
                      (Pessoa.Id p) (Pessoa.Nome p) (Pessoa.Idade p) 0 0 0)
    /\ (forall c, TransacoesDaCategoria ctx c = [] ->
                  linhaCategoria ctx c
                  = RelatoriosController.TotaisCategoria.Build
                      (Categoria.Id c) (Categoria.Descricao c)
                      (Categoria.Finalidade c) 0 0 0)
    /\ (forall p, In p (Pessoas ctx) ->
                  filter (fun l => RelatoriosController.TotaisPessoa.pessoaId l
                                   =? Pessoa.Id p)
                    (RelatoriosController.linhas porPessoa)
                  = [linhaPessoa ctx p])
    /\ (forall c, In c (Categorias ctx) ->
                  filter
                    (fun l => RelatoriosController.TotaisCategoria.categoriaId l
                              =? Categoria.Id c)
                    (RelatoriosController.linhas porCategoria)
                  = [linhaCategoria ctx c]).
Proof.
  intros He Hndp Hndc.
  exists (relatorioPorPessoa ctx), (relatorioPorCategoria ctx).
  split; [exact (GetTotaisPorPessoa_eq k ctx He Hndp) |].
  split; [exact (GetTotaisPorCategoria_eq k ctx He Hndc) |].
  unfold relatorioPorPessoa, relatorioPorCategoria. cbv zeta.
  cbn [RelatoriosController.linhas].
  split; [reflexivity |]. split; [reflexivity |].
  split.
  { intros l Hl. apply in_map_iff in Hl. destruct Hl as [p [Hp _]].
    subst l. reflexivity. }
  split.
  { intros l Hl. apply in_map_iff in Hl. destruct Hl as [c [Hc _]].
    subst l. reflexivity. }
  split.
  { intros p Hvazio. unfold linhaPessoa. cbv zeta.
    rewrite !(totalDe_vazio (daPessoa (Pessoa.Id p))) by exact Hvazio.
    reflexivity. }
  split.
  { intros c Hvazio. unfold linhaCategoria. cbv zeta.
    rewrite !(totalDe_vazio (daCategoria (Categoria.Id c))) by exact Hvazio.
    reflexivity. }
  split.
  - intros p Hp.
    apply (linha_unica Pessoa.Id RelatoriosController.TotaisPessoa.pessoaId
             (linhaPessoa ctx)); [reflexivity | exact Hndp | exact Hp].
  - intros c Hc.
    apply (linha_unica Categoria.Id
             RelatoriosController.TotaisCategoria.categoriaId
             (linhaCategoria ctx)); [reflexivity | exact Hndc | exact Hc].
Qed.

Ltac chaves_distintas :=
  repeat (constructor; [simpl; intuition discriminate |]); constructor.

Ltac somas_exatas :=
  split;
  [lia
  | split;
    [intros t Ht; simpl in Ht;
     repeat (destruct Ht as [Ht | Ht];
             [subst t; split; [simpl; lia | reflexivity] |]);
     contradiction
    | vm_compute; discriminate]].

Lemma banco_exato : exato 0 Exemplo.banco.
Proof. somas_exatas. Defined.

Lemma totais_por_grupo_exemplo :
  exists porPessoa porCategoria,
    RelatoriosController.GetTotaisPorPessoa Exemplo.banco = Retorna porPessoa
    /\ RelatoriosController.GetTotaisPorCategoria Exemplo.banco
       = Retorna porCategoria
    /\ filter (fun l => RelatoriosController.TotaisPessoa.pessoaId l =? 1)
         (RelatoriosController.linhas porPessoa)
       = [RelatoriosController.TotaisPessoa.Build 1 "Ana" 15 0 4000 (-4000)]
    /\ filter (fun l => RelatoriosController.TotaisCategoria.categoriaId l =? 4)
         (RelatoriosController.linhas porCategoria)
       = [RelatoriosController.TotaisCategoria.Build 4 "Lazer" "Ambas" 0 0 0].
Proof.
  destruct (totais_por_grupo 0 Exemplo.banco banco_exato
              ltac:(chaves_distintas) ltac:(chaves_distintas))
    as [pp [pc [Ep [Ec [_ [_ [_ [_ [_ [_ [Hp Hc]]]]]]]]]]].
  exists pp, pc. split; [exact Ep |]. split; [exact Ec |]. split.
  - apply (Hp Exemplo.ana). simpl. auto.
  - apply (Hc Exemplo.lazer). simpl. auto.
Defined.

(** Two incomes of 7 * 10^28, each accepted by [PostTransacao], for the
    same person and the same category: their sum is not a decimal, and
    neither report is returned. *)
Lemma totais_por_grupo_estouro :
  TransacoesController.PostTransacao
    (MkContext [Exemplo.bia] [Exemplo.diversos] []) 1
    (Exemplo.pedido "Heranca" (7 * 10 ^ 56) "Receita" 3 2)
  = (CreatedAtAction Exemplo.heranca,
     MkContext [Exemplo.bia] [Exemplo.diversos] [Exemplo.heranca])
  /\ TransacoesController.PostTransacao
       (MkContext [Exemplo.bia] [Exemplo.diversos] [Exemplo.heranca]) 2
       (Exemplo.pedido "Premio" (7 * 10 ^ 56) "Receita" 3 2)
     = (CreatedAtAction Exemplo.premio, Exemplo.bancoGrande)
  /\ Transacao.Valor Exemplo.heranca <= Decimal.MaxMantissa * 10 ^ 28
  /\ RelatoriosController.GetTotaisPorPessoa Exemplo.bancoGrande
     = Lanca OverflowException
  /\ RelatoriosController.GetTotaisPorCategoria Exemplo.bancoGrande
     = Lanca OverflowException.
Proof.
  split; [vm_compute; reflexivity |].
  split; [vm_compute; reflexivity |].
  split; [vm_compute; discriminate |].
  split; vm_compute; reflexivity.
Qed.

(** C5.  In a database whose sums are exact, whose keys are unique and in
    which every transaction references an existing person and an existing
    category, both reports are returned, their grand totals are the same,
    and they are the totals taken over the table of transactions itself:
    [totalReceitas] is the sum of the amounts of all transactions of kind
    ["Receita"], [totalDespesas] the sum of those of kind ["Despesa"],
    [saldoLiquido] their difference.  In each report the grand totals are
    the sums of the figures of its rows. *)
Theorem totais_gerais_conferem (k : Z) (ctx : AppDbContext) :
  exato k ctx ->
  integro ctx ->
  exists porPessoa porCategoria,
    RelatoriosController.GetTotaisPorPessoa ctx = Retorna porPessoa
    /\ RelatoriosController.GetTotaisPorCategoria ctx = Retorna porCategoria
    /\ let geral := RelatoriosController.totalGeral porPessoa in
       RelatoriosController.totalGeral porCategoria = geral
       /\ RelatoriosController.TotalGeral.totalReceitas geral
          = totalDe qualquer "Receita" (Transacoes ctx)
       /\ RelatoriosController.TotalGeral.totalDespesas geral
          = totalDe qualquer "Despesa" (Transacoes ctx)
       /\ RelatoriosController.TotalGeral.saldoLiquido geral
          = totalDe qualquer "Receita" (Transacoes ctx)
            - totalDe qualquer "Despesa" (Transacoes ctx)
       /\ RelatoriosController.TotalGeral.totalReceitas geral
          = somaSobre RelatoriosController.TotaisPessoa.totalReceitas
              (RelatoriosController.linhas porPessoa)
       /\ RelatoriosController.TotalGeral.totalDespesas geral
          = somaSobre RelatoriosController.TotaisPessoa.totalDespesas
              (RelatoriosController.linhas porPessoa)
       /\ RelatoriosController.TotalGeral.totalReceitas geral
          = somaSobre RelatoriosController.TotaisCategoria.totalReceitas
              (RelatoriosController.linhas porCategoria)
       /\ RelatoriosController.TotalGeral.totalDespesas geral
          = somaSobre RelatoriosController.TotaisCategoria.totalDespesas
              (RelatoriosController.linhas porCategoria).
Proof.
  intros He [Hp Hc Hrp Hrc].
  exists (relatorioPorPessoa ctx), (relatorioPorCategoria ctx).
  split; [exact (GetTotaisPorPessoa_eq k ctx He Hp) |].
  split; [exact (GetTotaisPorCategoria_eq k ctx He Hc) |].
  unfold relatorioPorPessoa, relatorioPorCategoria. cbv zeta.
  cbn [RelatoriosController.linhas RelatoriosController.totalGeral
         RelatoriosController.TotalGeral.totalReceitas
         RelatoriosController.TotalGeral.totalDespesas
         RelatoriosController.TotalGeral.saldoLiquido].
  rewrite !somaSobre_map.
  cbn [linhaPessoa linhaCategoria
         RelatoriosController.TotaisPessoa.totalReceitas
         RelatoriosController.TotaisPessoa.totalDespesas
         RelatoriosController.TotaisCategoria.totalReceitas
         RelatoriosController.TotaisCategoria.totalDespesas].
  pose proof (somaSobre_grupos Pessoa.Id Transacao.PessoaId "Receita"
                (Pessoas ctx) (Transacoes ctx) Hp Hrp) as PR.
  pose proof (somaSobre_grupos Pessoa.Id Transacao.PessoaId "Despesa"
                (Pessoas ctx) (Transacoes ctx) Hp Hrp) as PD.
  pose proof (somaSobre_grupos Categoria.Id Transacao.CategoriaId "Receita"
                (Categorias ctx) (Transacoes ctx) Hc Hrc) as CR.
  pose proof (somaSobre_grupos Categoria.Id Transacao.CategoriaId "Despesa"
                (Categorias ctx) (Transacoes ctx) Hc Hrc) as CD.
  unfold daPessoa, daCategoria.
  rewrite PR, PD, CR, CD.
  repeat split; reflexivity.
Qed.

Lemma banco_integro : integro Exemplo.banco.
Proof.
  constructor.
  - chaves_distintas.
  - chaves_distintas.
  - intros t Ht. simpl in Ht.
    repeat (destruct Ht as [Ht | Ht]; [subst t; simpl; auto |]).
    contradiction.
  - intros t Ht. simpl in Ht.
    repeat (destruct Ht as [Ht | Ht]; [subst t; simpl; auto |]).
    contradiction.
Defined.

Lemma totais_gerais_conferem_exemplo :
  exists porPessoa porCategoria,
    RelatoriosController.GetTotaisPorPessoa Exemplo.banco = Retorna porPessoa
    /\ RelatoriosController.GetTotaisPorCategoria Exemplo.banco
       = Retorna porCategoria
    /\ RelatoriosController.totalGeral porCategoria
       = RelatoriosController.totalGeral porPessoa
    /\ RelatoriosController.totalGeral porPessoa
       = RelatoriosController.TotalGeral.Build 10000 6500 3500.
Proof.
  destruct (totais_gerais_conferem 0 Exemplo.banco banco_exato banco_integro)
    as [pp [pc [Ep [Ec H]]]].
  cbv zeta in H. destruct H as [H _].
  exists pp, pc. split; [exact Ep |]. split; [exact Ec |].
  split; [exact H |].
  assert (E : Retorna pp = Retorna (relatorioPorPessoa Exemplo.banco))
    by (rewrite <- Ep; reflexivity).
  injection E as E. rewrite E. reflexivity.
Defined.

(** An income of 5 * 10^28 and an income of 0.5 for one person, an income
    of 0.5 for another; the first in one category, the other two in
    another.  Every key is unique and every reference resolves.  The sum
    of the first two amounts has 30 digits and is rounded to 5 * 10^28:
    the report by person gives 5 * 10^28 as the income of the first person
    and as the grand total, the report by category 5 * 10^28 + 1. *)
Lemma totais_gerais_arredondados :
  integro Exemplo.bancoArredondado
  /\ (exists porPessoa porCategoria,
         RelatoriosController.GetTotaisPorPessoa Exemplo.bancoArredondado
         = Retorna porPessoa
         /\ RelatoriosController.GetTotaisPorCategoria Exemplo.bancoArredondado
            = Retorna porCategoria
         /\ RelatoriosController.TotalGeral.totalReceitas
              (RelatoriosController.totalGeral porPessoa)
            = 5 * 10 ^ 56
         /\ RelatoriosController.TotalGeral.totalReceitas
              (RelatoriosController.totalGeral porCategoria)
            = 5 * 10 ^ 56 + 10 ^ 28
         /\ totalDe qualquer "Receita" (Transacoes Exemplo.bancoArredondado)
            = 5 * 10 ^ 56 + 10 ^ 28
         /\ RelatoriosController.totalGeral porCategoria
            <> RelatoriosController.totalGeral porPessoa).
Proof.
  split.
  - constructor.
    + chaves_distintas.
    + chaves_distintas.
    + intros t Ht. simpl in Ht.
      repeat (destruct Ht as [Ht | Ht]; [subst t; simpl; auto |]).
      contradiction.
    + intros t Ht. simpl in Ht.
      repeat (destruct Ht as [Ht | Ht]; [subst t; simpl; auto |]).
      contradiction.
  - eexists. eexists.
    split; [vm_compute; reflexivity |].
    split; [vm_compute; reflexivity |].
    split; [vm_compute; reflexivity |].
    split; [vm_compute; reflexivity |].
    split; [vm_compute; reflexivity |].
    vm_compute. discriminate.
Qed.

(** ** The enumerated fields *)

(** A body without nested transactions is the body [PostPessoa] models. *)
Lemma PostPessoa_sem_transacoes (ctx : AppDbContext) (i : Z) (p : Pessoa.t) :
  PessoasController.PostPessoaComTransacoes ctx i p []
  = Retorna (PessoasController.PostPessoa ctx i p).
Proof.
  unfold PessoasController.PostPessoaComTransacoes,
    PessoasController.PostPessoa.
  destruct (Texto.IsNullOrWhiteSpace (Pessoa.Nome p)); [reflexivity |].
  destruct (Pessoa.Idade p <? 0); [reflexivity |].
  cbv zeta. cbn [map forallb]. rewrite app_nil_r. reflexivity.
Qed.

(** C10.  In a database that holds the category [mercado] and nothing else,
    both enumerated fields are in their domains.  A person posted with one
    nested transaction of kind ["Bogus"] in that category is created: the
    answer is [CreatedAtAction], and the transaction is stored with the key
    of the new person, so that the kind of a stored transaction is neither
    ["Despesa"] nor ["Receita"].  [PostTransacao] rejects the same
    transaction for the same person with the message of the invalid
    kind. *)
Theorem PostPessoa_transacao_aninhada :
  let ctx := MkContext [] [Exemplo.mercado] [] in
  let eva := Pessoa.Build 1 "Eva" 30 in
  let aninhada := Exemplo.pedido "x" (10 ^ 28) "Bogus" 1 0 in
  let armazenada := Transacao.Build 1 "x" (10 ^ 28) "Bogus" 1 1 in
  let ctx' := MkContext [eva] [Exemplo.mercado] [armazenada] in
  dominios ctx
  /\ PessoasController.PostPessoaComTransacoes ctx 1
       (Pessoa.Build 0 "Eva" 30) [(1, aninhada)]
     = Retorna (CreatedAtAction eva, ctx')
  /\ ~ tipoValido (Transacao.Tipo armazenada)
  /\ ~ dominios ctx'
  /\ TransacoesController.PostTransacao
       (MkContext [eva] [Exemplo.mercado] []) 1
       (Exemplo.pedido "x" (10 ^ 28) "Bogus" 1 1)
     = (BadRequest TransacoesController.msgTipo,
        MkContext [eva] [Exemplo.mercado] []).
Proof.
  cbv zeta.
  assert (Hbogus : ~ tipoValido "Bogus")
    by (intros [H | H]; discriminate H).
  split; [| split; [| split; [| split]]].
  - split.
    + intros c [Hc | []]. subst c. left. reflexivity.
    + intros t [].
  - vm_compute. reflexivity.
  - exact Hbogus.
  - intros [_ H]. apply Hbogus.
    apply (H (Transacao.Build 1 "x" (10 ^ 28) "Bogus" 1 1)).
    left. reflexivity.
  - vm_compute. reflexivity.
Qed.

(** ** More lemmas on lookup and on the totals *)

Section Procura.

Context {A : Type}.

Lemma find_app_Some (f : A -> bool) (l l' : list A) (x : A) :
  find f l = Some x -> find f (l ++ l') = Some x.
Proof.
  induction l as [| y l IH]; simpl; [discriminate |].
  destruct (f y); [trivial | exact IH].
Qed.

Lemma find_app_None (f : A -> bool) (l l' : list A) :
  find f l = None -> find f (l ++ l') = find f l'.
Proof.
  induction l as [| y l IH]; simpl; [reflexivity |].
  destruct (f y); [discriminate | exact IH].
Qed.

(** A filter that keeps every row the search accepts does not change the
    search. *)
Lemma find_filter (f g : A -> bool) (l : list A) :
  (forall x, In x l -> f x = true -> g x = true) ->
  find f (filter g l) = find f l.
Proof.
  induction l as [| y l IH]; intro H; simpl; [reflexivity |].
  assert (IH' : find f (filter g l) = find f l)
    by (apply IH; intros x Hx; apply H; right; exact Hx).
  destruct (f y) eqn:Hf.
  - rewrite (H y (or_introl eq_refl) Hf). simpl. rewrite Hf. reflexivity.
  - destruct (g y); simpl; [rewrite Hf |]; exact IH'.
Qed.

Variable chave : A -> Z.

Lemma find_unico (l : list A) (x : A) :
  NoDup (map chave l) -> In x l ->
  find (fun y => chave y =? chave x) l = Some x.
Proof.
  induction l as [| y l IH]; simpl; intros Hnd Hin; [contradiction |].
  inversion Hnd as [| k ks Hnotin Hnd']; subst.
  destruct Hin as [Heq | Hin].
  - subst y. rewrite Z.eqb_refl. reflexivity.
  - destruct (Z.eqb_spec (chave y) (chave x)) as [Hk | Hk].
    + exfalso. apply Hnotin. rewrite Hk. apply in_map. exact Hin.
    + apply IH; assumption.
Qed.

Lemma find_chave (l : list A) (k : Z) (x : A) :
  find (fun y => chave y =? k) l = Some x -> In x l /\ chave x = k.
Proof.
  intro H. apply find_some in H. destruct H as [Hin Hk].
  split; [exact Hin | lia].
Qed.

End Procura.


Lemma totalDe_filter (f g : Transacao.t -> bool) (tipo : string)
    (ts : list Transacao.t) :
  totalDe f tipo (filter g ts) = totalDe (fun t => (f t && g t)%bool) tipo ts.
Proof.
  induction ts as [| t ts IH]; simpl; [reflexivity |].
  destruct (g t); simpl.
  - rewrite IH, andb_true_r. reflexivity.
  - rewrite IH, andb_false_r. simpl. reflexivity.
Qed.

(** ** More lemmas on the requests *)


Lemma DeletePessoa_semPessoa (ctx : AppDbContext) (id : Z) (pessoa : Pessoa.t) :
  FindPessoa ctx id = Some pessoa ->
  snd (PessoasController.DeletePessoa ctx id) = semPessoa id ctx.
Proof.
  intro Hfind. rewrite (DeletePessoa_sucesso ctx id pessoa Hfind).
  cbv zeta. unfold semPessoa. simpl.
  apply FindPessoa_Some in Hfind. destruct Hfind as [_ Hid]. subst id.
  f_equal. apply filter_ext. intro c. unfold orfa. simpl.
  apply negb_involutive.
Qed.

Lemma DeletePessoa_snd (ctx : AppDbContext) (id : Z) :
  snd (PessoasController.DeletePessoa ctx id)
  = match FindPessoa ctx id with
    | Some _ => semPessoa id ctx
    | None => ctx
    end.
Proof.
  destruct (FindPessoa ctx id) as [pessoa |] eqn:Hfind.
  - exact (DeletePessoa_semPessoa ctx id pessoa Hfind).
  - rewrite (DeletePessoa_ausente ctx id Hfind). reflexivity.
Qed.

Lemma FindPessoa_unico (ctx : AppDbContext) (p : Pessoa.t) :
  NoDup (map Pessoa.Id (Pessoas ctx)) -> In p (Pessoas ctx) ->
  FindPessoa ctx (Pessoa.Id p) = Some p.
Proof. intros Hnd Hin. exact (find_unico Pessoa.Id (Pessoas ctx) p Hnd Hin). Qed.

Lemma FindCategoria_unico (ctx : AppDbContext) (c : Categoria.t) :
  NoDup (map Categoria.Id (Categorias ctx)) -> In c (Categorias ctx) ->
  FindCategoria ctx (Categoria.Id c) = Some c.
Proof.
  intros Hnd Hin. exact (find_unico Categoria.Id (Categorias ctx) c Hnd Hin).
Qed.


(** ** Creation followed by lookup *)

Section Acrescimo.

Context {A : Type}.
Variable chave : A -> Z.

Lemma find_acrescimo_outra (l : list A) (x : A) (k : Z) :
  chave x <> k ->
  find (fun y => chave y =? k) (l ++ [x]) = find (fun y => chave y =? k) l.
Proof.
  intro Hk. destruct (find (fun y => chave y =? k) l) as [y |] eqn:E.
  - apply find_app_Some. exact E.
  - rewrite (find_app_None _ _ _ E). simpl.
    destruct (Z.eqb_spec (chave x) k); [contradiction | reflexivity].
Qed.

Lemma find_acrescimo_nova (l : list A) (x : A) :
  ~ In (chave x) (map chave l) ->
  find (fun y => chave y =? chave x) (l ++ [x]) = Some x.
Proof.
  intro Hnova. rewrite find_app_None.
  - simpl. rewrite Z.eqb_refl. reflexivity.
  - destruct (find _ l) as [y |] eqn:E; [| reflexivity].
    exfalso. apply Hnova. apply find_chave in E. destruct E as [Hin Hk].
    rewrite <- Hk. apply in_map. exact Hin.
Qed.

End Acrescimo.

(** X6.  When [PostPessoa] creates a person under a key that no person
    has, the person has the name and the age of the request (a name that is
    not blank, an age that is not negative), [GetPessoa] with that key
    returns it, [GetPessoas] lists it after the persons that were there,
    and [GetPessoa] with any other key answers as before. *)
Theorem PostPessoa_GetPessoa (ctx ctx' : AppDbContext) (i : Z)
    (p linha : Pessoa.t) :
  ~ In i (map Pessoa.Id (Pessoas ctx)) ->
  PessoasController.PostPessoa ctx i p = (CreatedAtAction linha, ctx') ->
  linha = Pessoa.Build i (Pessoa.Nome p) (Pessoa.Idade p)
  /\ Texto.IsNullOrWhiteSpace (Pessoa.Nome p) = false
  /\ 0 <= Pessoa.Idade p
  /\ PessoasController.GetPessoa ctx' i = Value linha
  /\ PessoasController.GetPessoas ctx'
     = (PessoasController.GetPessoas ctx ++ [linha])%list
  /\ (forall k, k <> i ->
                PessoasController.GetPessoa ctx' k
                = PessoasController.GetPessoa ctx k).
Proof.
  intros Hnova. unfold PessoasController.PostPessoa.
  destruct (Texto.IsNullOrWhiteSpace (Pessoa.Nome p)) eqn:Hn; [discriminate |].
  destruct (Z.ltb_spec (Pessoa.Idade p) 0) as [Hi | Hi]; [discriminate |].
  intro H. injection H as Hl Hc. subst linha ctx'.
  split; [reflexivity |]. split; [reflexivity |]. split; [exact Hi |].
  unfold PessoasController.GetPessoa, PessoasController.GetPessoas, FindPessoa.
  simpl. split; [| split; [reflexivity |]].
  - pose proof (find_acrescimo_nova Pessoa.Id (Pessoas ctx)
                  (Pessoa.Build i (Pessoa.Nome p) (Pessoa.Idade p)) Hnova) as E.
    simpl in E. rewrite E. reflexivity.
  - intros k Hk.
    rewrite (find_acrescimo_outra Pessoa.Id (Pessoas ctx)
               (Pessoa.Build i (Pessoa.Nome p) (Pessoa.Idade p)) k);
      [reflexivity | simpl; congruence].
Qed.

Lemma PostPessoa_GetPessoa_exemplo :
  PessoasController.GetPessoa
    (snd (PessoasController.PostPessoa Exemplo.banco 3 (Pessoa.Build 0 "Caio" 0)))
    3
  = Value (Pessoa.Build 3 "Caio" 0).
Proof.
  apply (PostPessoa_GetPessoa Exemplo.banco _ 3 (Pessoa.Build 0 "Caio" 0)
           (Pessoa.Build 3 "Caio" 0)).
  - simpl. intuition discriminate.
  - reflexivity.
Defined.

(** X7.  When [PostCategoria] creates a category under a key that no
    category has, the category has the description and the purpose of the
    request (one of the three valid purposes), [GetCategoria] with that key
    returns it, [GetCategorias] lists it after the categories that were
    there, and [GetCategoria] with any other key answers as before. *)
Theorem PostCategoria_GetCategoria (ctx ctx' : AppDbContext) (i : Z)
    (c linha : Categoria.t) :
  ~ In i (map Categoria.Id (Categorias ctx)) ->
  CategoriasController.PostCategoria ctx i c = (CreatedAtAction linha, ctx') ->
  linha = Categoria.Build i (Categoria.Descricao c) (Categoria.Finalidade c)
  /\ finalidadeValida (Categoria.Finalidade c)
  /\ CategoriasController.GetCategoria ctx' i = Value linha
  /\ CategoriasController.GetCategorias ctx'
     = (CategoriasController.GetCategorias ctx ++ [linha])%list
  /\ (forall k, k <> i ->
                CategoriasController.GetCategoria ctx' k
                = CategoriasController.GetCategoria ctx k).
Proof.
  intros Hnova Hpost.
  destruct (PostCategoria_casos ctx i c) as [[m Hm] | Hok];
    [rewrite Hm in Hpost; discriminate |].
  cbv zeta in Hok. destruct Hok as [Hok Hval]. rewrite Hok in Hpost.
  injection Hpost as Hl Hc. subst linha ctx'.
  split; [reflexivity |]. split; [exact Hval |].
  unfold CategoriasController.GetCategoria, CategoriasController.GetCategorias,
    FindCategoria.
  simpl. split; [| split; [reflexivity |]].
  - pose proof (find_acrescimo_nova Categoria.Id (Categorias ctx)
                  (Categoria.Build i (Categoria.Descricao c)
                     (Categoria.Finalidade c)) Hnova) as E.
    simpl in E. rewrite E. reflexivity.
  - intros k Hk.
    rewrite (find_acrescimo_outra Categoria.Id (Categorias ctx)
               (Categoria.Build i (Categoria.Descricao c)
                  (Categoria.Finalidade c)) k);
      [reflexivity | simpl; congruence].
Qed.

Lemma PostCategoria_GetCategoria_exemplo :
  CategoriasController.GetCategoria
    (snd (CategoriasController.PostCategoria Exemplo.banco 5
            (Categoria.Build 0 "Saude" "Despesa")))
    5
  = Value (Categoria.Build 5 "Saude" "Despesa").
Proof.
  apply (PostCategoria_GetCategoria Exemplo.banco _ 5
           (Categoria.Build 0 "Saude" "Despesa")
           (Categoria.Build 5 "Saude" "Despesa")).
  - simpl. intuition discriminate.
  - reflexivity.
Defined.



(** ** Deletions *)

Section Filtros.

Context {A : Type}.

Lemma filter_filter_e (f g : A -> bool) (l : list A) :
  filter f (filter g l) = filter (fun x => (f x && g x)%bool) l.
Proof.
  induction l as [| x l IH]; simpl; [reflexivity |].
  destruct (g x); simpl.
  - rewrite andb_true_r. destruct (f x); rewrite IH; reflexivity.
  - rewrite andb_false_r. exact IH.
Qed.

Lemma filter_troca (f g : A -> bool) (l : list A) :
  filter f (filter g l) = filter g (filter f l).
Proof.
  rewrite !filter_filter_e. apply filter_ext. intro x. apply andb_comm.
Qed.

Lemma filter_absorve (f g : A -> bool) (l : list A) :
  (forall x, f x = true -> g x = true) ->
  filter f (filter g l) = filter f l.
Proof.
  intro H. rewrite filter_filter_e. apply filter_ext. intro x.
  destruct (f x) eqn:Hf; [rewrite (H x Hf) |]; reflexivity.
Qed.

Lemma filter_tudo (f : A -> bool) (l : list A) :
  (forall x, In x l -> f x = true) -> filter f l = l.
Proof.
  induction l as [| x l IH]; simpl; intro H; [reflexivity |].
  rewrite (H x (or_introl eq_refl)). f_equal.
  apply IH. intros y Hy. apply H. right. exact Hy.
Qed.

Lemma filter_map_troca {B : Type} (f : B -> bool) (g : A -> B) (l : list A) :
  filter f (map g l) = map g (filter (fun x => f (g x)) l).
Proof.
  induction l as [| x l IH]; simpl; [reflexivity |].
  destruct (f (g x)); simpl; rewrite IH; reflexivity.
Qed.

End Filtros.

Lemma FindPessoa_semPessoa (ctx : AppDbContext) (a b : Z) :
  a <> b -> FindPessoa (semPessoa a ctx) b = FindPessoa ctx b.
Proof.
  intro Hab. unfold FindPessoa, semPessoa. simpl. apply find_filter.
  intros x _ Hx. apply Z.eqb_eq in Hx. apply negb_true_iff.
  apply Z.eqb_neq. congruence.
Qed.

Lemma semPessoa_comuta (ctx : AppDbContext) (a b : Z) :
  semPessoa a (semPessoa b ctx) = semPessoa b (semPessoa a ctx).
Proof.
  unfold semPessoa. simpl.
  rewrite (filter_troca (fun t => negb (Transacao.PessoaId t =? a))
             (fun t => negb (Transacao.PessoaId t =? b)) (Transacoes ctx)).
  f_equal.
  - apply filter_troca.
  - assert (H : forall (x y : Z) (c : Categoria.t),
               existsb (fun t => Transacao.CategoriaId t =? Categoria.Id c)
                 (filter (fun t => negb (Transacao.PessoaId t =? x))
                    (filter (fun t => negb (Transacao.PessoaId t =? y))
                       (Transacoes ctx))) = true ->
               existsb (fun t => Transacao.CategoriaId t =? Categoria.Id c)
                 (filter (fun t => negb (Transacao.PessoaId t =? y))
                    (Transacoes ctx)) = true).
    { intros x y c Hc. apply existsb_exists in Hc.
      destruct Hc as [t [Ht Hk]]. apply filter_In in Ht.
      destruct Ht as [Ht _]. apply existsb_exists. exists t.
      split; assumption. }
    rewrite (filter_absorve _ _ (Categorias ctx) (H b a)).
    rewrite <- (filter_troca (fun t => negb (Transacao.PessoaId t =? a))
                  (fun t => negb (Transacao.PessoaId t =? b)) (Transacoes ctx)).
    rewrite (filter_absorve _ _ (Categorias ctx) (H a b)).
    rewrite (filter_troca (fun t => negb (Transacao.PessoaId t =? a))
               (fun t => negb (Transacao.PessoaId t =? b)) (Transacoes ctx)).
    reflexivity.
Qed.

(** X9.  Two deletions of persons commute: calling [DeletePessoa] for one
    key and then for another leaves the same persons, the same categories
    and the same transactions as the two calls in the other order, whether
    or not the keys exist. *)
Theorem DeletePessoa_comuta (ctx : AppDbContext) (a b : Z) :
  snd (PessoasController.DeletePessoa
         (snd (PessoasController.DeletePessoa ctx a)) b)
  = snd (PessoasController.DeletePessoa
           (snd (PessoasController.DeletePessoa ctx b)) a).
Proof.
  destruct (Z.eq_dec a b) as [Heq | Hneq]; [subst b; reflexivity |].
  rewrite !DeletePessoa_snd.
  destruct (FindPessoa ctx a) as [pa |] eqn:Ha,
      (FindPessoa ctx b) as [pb |] eqn:Hb.
  - rewrite (FindPessoa_semPessoa ctx a b Hneq), Hb.
    rewrite (FindPessoa_semPessoa ctx b a (not_eq_sym Hneq)), Ha.
    symmetry. apply semPessoa_comuta.
  - rewrite (FindPessoa_semPessoa ctx a b Hneq), ?Hb, ?Ha. reflexivity.
  - rewrite (FindPessoa_semPessoa ctx b a (not_eq_sym Hneq)), ?Ha, ?Hb.
    reflexivity.
  - rewrite ?Ha, ?Hb. reflexivity.
Qed.

(** ** The database after a deletion *)

Lemma semPessoa_integro (ctx : AppDbContext) (id : Z) :
  integro ctx -> integro (semPessoa id ctx).
Proof.
  intros [Hp Hc Hrp Hrc]. constructor; simpl.
  - apply NoDup_map_filter. exact Hp.
  - apply NoDup_map_filter. exact Hc.
  - intros t Ht. apply filter_In in Ht. destruct Ht as [Ht Hdif].
    apply Hrp in Ht. apply in_map_iff in Ht. destruct Ht as [q [Hq Hin]].
    apply in_map_iff. exists q. split; [exact Hq |].
    apply filter_In. split; [exact Hin |]. rewrite Hq. exact Hdif.
  - intros t Ht. pose proof Ht as Ht'.
    apply filter_In in Ht. destruct Ht as [Ht Hdif].
    apply Hrc in Ht. apply in_map_iff in Ht. destruct Ht as [c [Hq Hin]].
    apply in_map_iff. exists c. split; [exact Hq |].
    apply filter_In. split; [exact Hin |].
    apply existsb_exists. exists t. split; [exact Ht' | lia].
Qed.

Lemma FindCategoria_semPessoa (ctx : AppDbContext) (id : Z) (t : Transacao.t) :
  In t (Transacoes (semPessoa id ctx)) ->
  FindCategoria (semPessoa id ctx) (Transacao.CategoriaId t)
  = FindCategoria ctx (Transacao.CategoriaId t).
Proof.
  intro Ht. unfold FindCategoria. cbn [Categorias semPessoa].
  apply find_filter. intros c _ Hc. apply existsb_exists.
  exists t. split; [exact Ht | lia].
Qed.

(** X1.  [DeletePessoa] keeps the integrity of the database: when the keys
    of the persons are pairwise distinct, so are the keys of the
    categories, and the person and the category of every stored transaction
    exist, the same holds after the request, whatever its answer: the
    cascade and the sweep leave no transaction without its person or its
    category. *)
Theorem integridade_referencial (ctx : AppDbContext) (id : Z) :
  integro ctx ->
  let ctx' := snd (PessoasController.DeletePessoa ctx id) in
  NoDup (map Pessoa.Id (Pessoas ctx'))
  /\ NoDup (map Categoria.Id (Categorias ctx'))
  /\ (forall t, In t (Transacoes ctx') ->
                In (Transacao.PessoaId t) (map Pessoa.Id (Pessoas ctx'))
                /\ In (Transacao.CategoriaId t)
                     (map Categoria.Id (Categorias ctx'))).
Proof.
  intros H ctx'.
  assert (H' : integro ctx').
  { subst ctx'. rewrite DeletePessoa_snd.
    destruct (FindPessoa ctx id); [apply semPessoa_integro |]; exact H. }
  destruct H' as [Hp Hc Hrp Hrc].
  split; [exact Hp |]. split; [exact Hc |].
  intros t Ht. split; [apply Hrp | apply Hrc]; exact Ht.
Qed.

Lemma integridade_referencial_exemplo :
  integro Exemplo.banco
  /\ NoDup
       (map Categoria.Id
          (Categorias (snd (PessoasController.DeletePessoa Exemplo.banco 2))))
  /\ In (Transacao.CategoriaId Exemplo.compra)
       (map Categoria.Id
          (Categorias (snd (PessoasController.DeletePessoa Exemplo.banco 2)))).
Proof.
  split; [exact banco_integro |].
  pose proof (integridade_referencial Exemplo.banco 2 banco_integro) as H.
  cbv zeta in H. destruct H as [_ [Hc H]].
  split; [exact Hc |].
  apply (H Exemplo.compra). simpl. auto.
Defined.

(** X2.  [DeletePessoa] leaves the transactions that remain as they were:
    a remaining transaction was stored before, and its person and its
    category are looked up to the same rows as before (the sweep deletes
    no category that a remaining transaction uses).  So a transaction that
    obeyed the business rules before the request (an expense if its person
    is under 18, a kind compatible with the purpose of its category) obeys
    them after it. *)
Theorem regras_de_negocio_armazenadas (ctx : AppDbContext) (id : Z)
    (t : Transacao.t) :
  let ctx' := snd (PessoasController.DeletePessoa ctx id) in
  In t (Transacoes ctx') ->
  In t (Transacoes ctx)
  /\ TransacoesController.Include ctx' t = TransacoesController.Include ctx t
  /\ (regular ctx t -> regular ctx' t).
Proof.
  intros ctx' Ht.
  assert (H : In t (Transacoes ctx)
              /\ FindPessoa ctx' (Transacao.PessoaId t)
                 = FindPessoa ctx (Transacao.PessoaId t)
              /\ FindCategoria ctx' (Transacao.CategoriaId t)
                 = FindCategoria ctx (Transacao.CategoriaId t)).
  { subst ctx'. rewrite DeletePessoa_snd in *.
    destruct (FindPessoa ctx id) as [pessoa |]; [| tauto].
    split; [| split].
    - simpl in Ht. apply filter_In in Ht. tauto.
    - apply FindPessoa_semPessoa. simpl in Ht. apply filter_In in Ht.
      destruct Ht as [_ Ht]. apply negb_true_iff in Ht. lia.
    - apply FindCategoria_semPessoa. exact Ht. }
  destruct H as [Hin [Hp Hc]].
  split; [exact Hin |]. split.
  - unfold TransacoesController.Include. rewrite Hp, Hc. reflexivity.
  - unfold regular. rewrite Hp, Hc. tauto.
Qed.

Lemma regras_de_negocio_armazenadas_exemplo :
  In Exemplo.compra
    (Transacoes (snd (PessoasController.DeletePessoa Exemplo.banco 2)))
  /\ TransacoesController.Include
       (snd (PessoasController.DeletePessoa Exemplo.banco 2)) Exemplo.compra
     = TransacoesController.MkCarregada Exemplo.compra
         (Some Exemplo.ana) (Some Exemplo.mercado).
Proof.
  assert (H : In Exemplo.compra
                (Transacoes
                   (snd (PessoasController.DeletePessoa Exemplo.banco 2))))
    by (simpl; auto).
  split; [exact H |].
  pose proof (regras_de_negocio_armazenadas Exemplo.banco 2 Exemplo.compra)
    as R.
  cbv zeta in R. destruct (R H) as [_ [E _]]. rewrite E. reflexivity.
Defined.

(** ** Loaded references *)

(** X5.  The list of [GetTransacoes] has one item per stored transaction,
    in order.  In a database in which the person and the category of every
    transaction exist (the foreign keys of [OnModelCreating]), both
    references of every item are loaded: [pessoa] is a person whose key is
    the [PessoaId] of the row and [categoria] a category whose key is its
    [CategoriaId]; neither is [null]. *)
Theorem GetTransacoes_carregadas (ctx : AppDbContext) :
  (forall t, In t (Transacoes ctx) ->
             In (Transacao.PessoaId t) (map Pessoa.Id (Pessoas ctx))
             /\ In (Transacao.CategoriaId t)
                  (map Categoria.Id (Categorias ctx))) ->
  map TransacoesController.linha (TransacoesController.GetTransacoes ctx)
  = Transacoes ctx
  /\ (forall x,
         In x (TransacoesController.GetTransacoes ctx) ->
         exists p c,
           TransacoesController.pessoa x = Some p
           /\ TransacoesController.categoria x = Some c
           /\ In p (Pessoas ctx)
           /\ In c (Categorias ctx)
           /\ Pessoa.Id p = Transacao.PessoaId (TransacoesController.linha x)
           /\ Categoria.Id c
              = Transacao.CategoriaId (TransacoesController.linha x)).
Proof.
  intro Href. unfold TransacoesController.GetTransacoes. split.
  - rewrite map_map. simpl. apply map_id.
  - intros x Hx. apply in_map_iff in Hx. destruct Hx as [t [Hx Ht]].
    subst x. simpl.
    destruct (Href t Ht) as [Hrp Hrc].
    destruct (FindPessoa ctx (Transacao.PessoaId t)) as [p |] eqn:Hp;
      [| apply FindPessoa_None in Hp; contradiction].
    destruct (FindCategoria ctx (Transacao.CategoriaId t)) as [c |] eqn:Hc;
      [| apply FindCategoria_None in Hc; contradiction].
    exists p, c. split; [reflexivity |]. split; [reflexivity |].
    apply FindPessoa_Some in Hp. apply FindCategoria_Some in Hc. tauto.
Qed.

Lemma GetTransacoes_carregadas_exemplo :
  exists p c,
    TransacoesController.pessoa
      (TransacoesController.Include Exemplo.banco Exemplo.cinema) = Some p
    /\ TransacoesController.categoria
         (TransacoesController.Include Exemplo.banco Exemplo.cinema) = Some c
    /\ In p (Pessoas Exemplo.banco)
    /\ In c (Categorias Exemplo.banco)
    /\ Pessoa.Id p = 2
    /\ Categoria.Id c = 3.
Proof.
  apply (proj2 (GetTransacoes_carregadas Exemplo.banco
                  (fun t Ht =>
                     conj (referenciaPessoa _ banco_integro t Ht)
                       (referenciaCategoria _ banco_integro t Ht)))
           (TransacoesController.Include Exemplo.banco Exemplo.cinema)).
  simpl. auto.
Defined.

Lemma somaSobre_retira {X : Type} (chave : X -> Z) (f : X -> Z)
    (l : list X) (x : X) :
  NoDup (map chave l) -> In x l ->
  somaSobre f l
  = f x + somaSobre f (filter (fun y => negb (chave y =? chave x)) l).
Proof.
  induction l as [| y l IH]; simpl; intros Hnd Hin; [contradiction |].
  inversion Hnd as [| k ks Hnotin Hnd']; subst.
  destruct Hin as [Heq | Hin].
  - subst y. rewrite Z.eqb_refl. simpl. f_equal.
    rewrite filter_tudo; [reflexivity |].
    intros z Hz. apply negb_true_iff. apply Z.eqb_neq. intro Hk.
    apply Hnotin. rewrite <- Hk. apply in_map. exact Hz.
  - destruct (Z.eqb_spec (chave y) (chave x)) as [Hk | Hk].
    + exfalso. apply Hnotin. rewrite Hk. apply in_map. exact Hin.
    + simpl. rewrite (IH Hnd' Hin). lia.
Qed.

Lemma linhaPessoa_semPessoa (ctx : AppDbContext) (id : Z) (p : Pessoa.t) :
  Pessoa.Id p <> id -> linhaPessoa (semPessoa id ctx) p = linhaPessoa ctx p.
Proof.
  intro Hp. unfold linhaPessoa, semPessoa. cbv zeta. simpl.
  assert (E : forall tipo,
             totalDe (daPessoa (Pessoa.Id p)) tipo
               (filter (fun t => negb (Transacao.PessoaId t =? id))
                  (Transacoes ctx))
             = totalDe (daPessoa (Pessoa.Id p)) tipo (Transacoes ctx)).
  { intro tipo. rewrite totalDe_filter. apply totalDe_ext.
    intros t _. unfold daPessoa.
    destruct (Z.eqb_spec (Transacao.PessoaId t) (Pessoa.Id p)) as [Hk | Hk];
      [| reflexivity].
    simpl. apply negb_true_iff. apply Z.eqb_neq. congruence. }
  rewrite !E. reflexivity.
Qed.

Lemma somaSobre_filter_le {X : Type} (f : X -> Z) (g : X -> bool)
    (l : list X) :
  (forall x, In x l -> 0 <= f x) ->
  0 <= somaSobre f (filter g l) <= somaSobre f l.
Proof.
  induction l as [| x l IH]; simpl; intro H; [lia |].
  assert (0 <= f x) by (apply H; left; reflexivity).
  assert (0 <= somaSobre f (filter g l) <= somaSobre f l)
    by (apply IH; intros y Hy; apply H; right; exact Hy).
  destruct (g x); simpl; lia.
Qed.

Lemma semPessoa_exato (k : Z) (ctx : AppDbContext) (id : Z) :
  exato k ctx -> exato k (semPessoa id ctx).
Proof.
  intros [Hk [Hts Hmax]]. split; [exact Hk |]. split.
  - intros t Ht. simpl in Ht. apply filter_In in Ht. apply Hts. tauto.
  - unfold semPessoa. cbn [Transacoes].
    pose proof (somaSobre_filter_le Transacao.Valor
                  (fun t => negb (Transacao.PessoaId t =? id))
                  (Transacoes ctx) (fun t Ht => proj1 (Hts t Ht))).
    lia.
Qed.

Lemma DeletePessoa_exato (k : Z) (ctx : AppDbContext) (id : Z) :
  exato k ctx -> exato k (snd (PessoasController.DeletePessoa ctx id)).
Proof.
  intro H. rewrite DeletePessoa_snd.
  destruct (FindPessoa ctx id); [apply semPessoa_exato |]; exact H.
Qed.

Lemma DeletePessoa_chaves (ctx : AppDbContext) (id : Z) :
  NoDup (map Pessoa.Id (Pessoas ctx)) ->
  NoDup (map Pessoa.Id (Pessoas (snd (PessoasController.DeletePessoa ctx id)))).
Proof.
  intro H. rewrite DeletePessoa_snd.
  destruct (FindPessoa ctx id); [| exact H].
  simpl. apply NoDup_map_filter. exact H.
Qed.

(** X10.  In a database whose sums are exact and whose person keys are
    distinct, the report by person is returned before and after
    [DeletePessoa].  After it the report has the rows it had before,
    unchanged and in the same order, without the row of the deleted key:
    the figures of the other persons do not move.  When the person
    existed, the grand totals of income and of expenses decrease by the
    figures of the deleted row. *)
Theorem DeletePessoa_relatorio (k : Z) (ctx : AppDbContext) (id : Z) :
  exato k ctx ->
  NoDup (map Pessoa.Id (Pessoas ctx)) ->
  let ctx' := snd (PessoasController.DeletePessoa ctx id) in
  exists antes depois,
    RelatoriosController.GetTotaisPorPessoa ctx = Retorna antes
    /\ RelatoriosController.GetTotaisPorPessoa ctx' = Retorna depois
    /\ RelatoriosController.linhas depois
       = filter
           (fun l => negb (RelatoriosController.TotaisPessoa.pessoaId l =? id))
           (RelatoriosController.linhas antes)
    /\ (forall pessoa,
           FindPessoa ctx id = Some pessoa ->
           RelatoriosController.TotalGeral.totalReceitas
             (RelatoriosController.totalGeral depois)
           = RelatoriosController.TotalGeral.totalReceitas
               (RelatoriosController.totalGeral antes)
             - RelatoriosController.TotaisPessoa.totalReceitas
                 (linhaPessoa ctx pessoa)
           /\ RelatoriosController.TotalGeral.totalDespesas
                (RelatoriosController.totalGeral depois)
              = RelatoriosController.TotalGeral.totalDespesas
                  (RelatoriosController.totalGeral antes)
                - RelatoriosController.TotaisPessoa.totalDespesas
                    (linhaPessoa ctx pessoa)).
Proof.
  intros He Hnd ctx'.
  exists (relatorioPorPessoa ctx), (relatorioPorPessoa ctx').
  split; [exact (GetTotaisPorPessoa_eq k ctx He Hnd) |].
  split.
  { apply (GetTotaisPorPessoa_eq k);
      [apply DeletePessoa_exato; exact He
      | apply DeletePessoa_chaves; exact Hnd]. }
  subst ctx'. unfold relatorioPorPessoa. cbv zeta.
  cbn [RelatoriosController.linhas RelatoriosController.totalGeral
         RelatoriosController.TotalGeral.totalReceitas
         RelatoriosController.TotalGeral.totalDespesas].
  rewrite DeletePessoa_snd. split.
  - rewrite filter_map_troca.
    destruct (FindPessoa ctx id) as [pessoa |] eqn:Hfind.
    + simpl. apply map_ext_in. intros p Hp. apply filter_In in Hp.
      destruct Hp as [_ Hp]. apply negb_true_iff, Z.eqb_neq in Hp.
      apply linhaPessoa_semPessoa. exact Hp.
    + rewrite filter_tudo; [reflexivity |].
      intros p Hp. simpl. apply negb_true_iff. apply Z.eqb_neq. intro Hk.
      apply FindPessoa_None in Hfind. apply Hfind. rewrite <- Hk.
      apply in_map. exact Hp.
  - intros pessoa Hfind. rewrite Hfind.
    apply FindPessoa_Some in Hfind. destruct Hfind as [Hin Hid]. subst id.
    assert (E : forall tipo,
               somaSobre
                 (fun p => totalDe (daPessoa (Pessoa.Id p)) tipo
                             (Transacoes (semPessoa (Pessoa.Id pessoa) ctx)))
                 (Pessoas (semPessoa (Pessoa.Id pessoa) ctx))
               = somaSobre
                   (fun p => totalDe (daPessoa (Pessoa.Id p)) tipo
                               (Transacoes ctx))
                   (Pessoas ctx)
                 - totalDe (daPessoa (Pessoa.Id pessoa)) tipo (Transacoes ctx)).
    { intro tipo.
      rewrite (somaSobre_retira Pessoa.Id
                 (fun p => totalDe (daPessoa (Pessoa.Id p)) tipo (Transacoes ctx))
                 (Pessoas ctx) pessoa Hnd Hin).
      simpl.
      rewrite (somaSobre_ext
                 (fun p => totalDe (daPessoa (Pessoa.Id p)) tipo
                             (filter
                                (fun t => negb (Transacao.PessoaId t
                                                =? Pessoa.Id pessoa))
                                (Transacoes ctx)))
                 (fun p => totalDe (daPessoa (Pessoa.Id p)) tipo
                             (Transacoes ctx))).
      - lia.
      - intros p Hp. apply filter_In in Hp. destruct Hp as [_ Hp].
        apply negb_true_iff, Z.eqb_neq in Hp.
        rewrite totalDe_filter. apply totalDe_ext.
        intros t _. unfold daPessoa.
        destruct (Z.eqb_spec (Transacao.PessoaId t) (Pessoa.Id p)) as [Hk | Hk];
          [| reflexivity].
        simpl. apply negb_true_iff. apply Z.eqb_neq. congruence. }
    rewrite !E. unfold linhaPessoa. simpl. split; reflexivity.
Qed.

Lemma DeletePessoa_relatorio_exemplo :
  exists antes depois,
    RelatoriosController.GetTotaisPorPessoa Exemplo.banco = Retorna antes
    /\ RelatoriosController.GetTotaisPorPessoa
         (snd (PessoasController.DeletePessoa Exemplo.banco 2))
       = Retorna depois
    /\ RelatoriosController.linhas depois
       = [RelatoriosController.TotaisPessoa.Build 1 "Ana" 15 0 4000 (-4000)]
    /\ RelatoriosController.TotalGeral.totalReceitas
         (RelatoriosController.totalGeral depois)
       = RelatoriosController.TotalGeral.totalReceitas
           (RelatoriosController.totalGeral antes)
         - 10000.
Proof.
  destruct (DeletePessoa_relatorio 0 Exemplo.banco 2 banco_exato
              ltac:(chaves_distintas))
    as [antes [depois [Ea [Ed [Hl H]]]]].
  exists antes, depois. split; [exact Ea |]. split; [exact Ed |].
  assert (E : Retorna antes = Retorna (relatorioPorPessoa Exemplo.banco))
    by (rewrite <- Ea; reflexivity).
  injection E as E. split.
  - rewrite Hl, E. reflexivity.
  - exact (proj1 (H Exemplo.bia eq_refl)).
Defined.

(** ** A created transaction in the report by person *)






(** ** Responses *)

(** X12.  An action that answers with an error status (400 or 404) has
    written nothing: when the result of [PostPessoa], [PostCategoria],
    [PostTransacao] or [DeletePessoa] is [BadRequest] or [NotFound], the
    database is the one before the request. *)
Theorem resposta_e_escrita (ctx : AppDbContext) :
  (forall i p,
      400 <= StatusCode (fst (PessoasController.PostPessoa ctx i p)) ->
      snd (PessoasController.PostPessoa ctx i p) = ctx)
  /\ (forall i c,
         400 <= StatusCode (fst (CategoriasController.PostCategoria ctx i c)) ->
         snd (CategoriasController.PostCategoria ctx i c) = ctx)
  /\ (forall i t,
         400 <= StatusCode (fst (TransacoesController.PostTransacao ctx i t)) ->
         snd (TransacoesController.PostTransacao ctx i t) = ctx)
  /\ (forall id,
         400 <= StatusCode (fst (PessoasController.DeletePessoa ctx id)) ->
         snd (PessoasController.DeletePessoa ctx id) = ctx).
Proof.
  split; [| split; [| split]].
  - intros i p.
    destruct (PostPessoa_casos ctx i p) as [[m Hm] | Hok];
      [| cbv zeta in Hok]; rewrite ?Hm, ?Hok; simpl;
      [reflexivity | lia].
  - intros i c.
    destruct (PostCategoria_casos ctx i c) as [[m Hm] | Hok];
      [| cbv zeta in Hok; destruct Hok as [Hok _]];
      rewrite ?Hm, ?Hok; simpl; [reflexivity | lia].
  - intros i t.
    destruct (PostTransacao_casos ctx i t) as [[m Hm] | [Hok _]];
      rewrite ?Hm, ?Hok; simpl; [reflexivity | lia].
  - intro id.
    destruct (FindPessoa ctx id) as [pessoa |] eqn:Hfind;
      [rewrite (DeletePessoa_sucesso ctx id pessoa Hfind)
      | rewrite (DeletePessoa_ausente ctx id Hfind)];
      simpl; [lia | reflexivity].
Qed.

Lemma resposta_e_escrita_exemplo :
  fst (TransacoesController.PostTransacao Exemplo.banco 4
         (Exemplo.pedido "Mesada" 1500 "Receita" 3 1))
  = BadRequest TransacoesController.msgMenor
  /\ snd (TransacoesController.PostTransacao Exemplo.banco 4
            (Exemplo.pedido "Mesada" 1500 "Receita" 3 1))
     = Exemplo.banco.
Proof.
  split; [reflexivity |].
  apply (proj1 (proj2 (proj2 (resposta_e_escrita Exemplo.banco)))).
  vm_compute. discriminate.
Defined.

(** X13.  The message of a successful [DeletePessoa] tells the number of
    categories it deleted: two successful deletions, in any two databases,
    answer with the same message exactly when they deleted the same number
    of categories. *)
Theorem DeletePessoa_mensagem_contagem (ctx1 ctx2 : AppDbContext) (id1 id2 : Z)
    (p1 p2 : Pessoa.t) :
  FindPessoa ctx1 id1 = Some p1 ->
  FindPessoa ctx2 id2 = Some p2 ->
  let r1 := PessoasController.DeletePessoa ctx1 id1 in
  let r2 := PessoasController.DeletePessoa ctx2 id2 in
  fst r1 = fst r2
  <-> (List.length (Categorias ctx1) - List.length (Categorias (snd r1))
       = List.length (Categorias ctx2) - List.length (Categorias (snd r2)))%nat.
Proof.
  intros H1 H2 r1 r2. subst r1 r2.
  rewrite (DeletePessoa_sucesso ctx1 id1 p1 H1).
  rewrite (DeletePessoa_sucesso ctx2 id2 p2 H2). cbv zeta.
  cbn [fst snd Categorias].
  pose proof (filter_comprimento
                (orfa (PessoasController.RemovePessoa ctx1 p1))
                (Categorias ctx1)) as L1.
  pose proof (filter_comprimento
                (orfa (PessoasController.RemovePessoa ctx2 p2))
                (Categorias ctx2)) as L2.
  set (n1 := List.length
               (filter (orfa (PessoasController.RemovePessoa ctx1 p1))
                  (Categorias ctx1))) in *.
  set (n2 := List.length
               (filter (orfa (PessoasController.RemovePessoa ctx2 p2))
                  (Categorias ctx2))) in *.
  split.
  - intro H.
    assert (H' : PessoasController.mensagemSucesso (Z.of_nat n1)
                 = PessoasController.mensagemSucesso (Z.of_nat n2))
      by congruence.
    apply mensagemSucesso_inj in H'. lia.
  - intro H. replace n2 with n1 by lia. reflexivity.
Qed.

Lemma DeletePessoa_mensagem_contagem_exemplo :
  fst (PessoasController.DeletePessoa Exemplo.banco 2)
  <> fst (PessoasController.DeletePessoa Exemplo.banco 1).
Proof.
  intro H.
  apply (DeletePessoa_mensagem_contagem Exemplo.banco Exemplo.banco 2 1
           Exemplo.bia Exemplo.ana eq_refl eq_refl) in H.
  vm_compute in H. discriminate H.
Defined.

(** ** The form and the controller *)

(** X14.  For a request with a valid description, amount and kind, whose
    person exists and is not stopped by the minor rule, and whose category
    exists with one of the three valid purposes: [PostTransacao] creates
    the transaction exactly when the category is one of those that the form
    offers for the kind ([getCategoriasCompativeis]). *)
Theorem getCategoriasCompativeis_PostTransacao (ctx : AppDbContext) (i : Z)
    (t : Transacao.t) (p : Pessoa.t) (c : Categoria.t) :
  Admissao.entradaValida t = true ->
  FindPessoa ctx (Transacao.PessoaId t) = Some p ->
  18 <= Pessoa.Idade p \/ Transacao.Tipo t = "Despesa"%string ->
  FindCategoria ctx (Transacao.CategoriaId t) = Some c ->
  finalidadeValida (Categoria.Finalidade c) ->
  In c (TransacoesManager.getCategoriasCompativeis (Categorias ctx)
          (Transacao.Tipo t))
  <-> fst (TransacoesController.PostTransacao ctx i t)
      = CreatedAtAction (Transacao.comId i t).
Proof.
  intros Hval Hp Hmenor Hc Hfin.
  assert (Htipo : tipoValido (Transacao.Tipo t)).
  { apply entradaValida_verificacoes in Hval.
    apply Contains_tiposValidos. tauto. }
  rewrite (PostTransacao_valida ctx i t Hval), Hp, Hc.
  replace ((Pessoa.Idade p <? 18) && (Transacao.Tipo t =? "Receita")%string)%bool
    with false.
  2:{ symmetry. apply andb_false_iff. destruct Hmenor as [H | H].
      - left. apply Z.ltb_ge. exact H.
      - right. rewrite H. reflexivity. }
  unfold TransacoesManager.getCategoriasCompativeis. rewrite filter_In.
  apply FindCategoria_Some in Hc. destruct Hc as [Hin _].
  unfold finalidadeValida in Hfin. unfold tipoValido in Htipo.
  destruct Htipo as [Ht | Ht], Hfin as [Hf | [Hf | Hf]];
    rewrite Ht, Hf; simpl; split; intro H;
    try (split; [exact Hin | reflexivity]);
    try reflexivity; try discriminate H;
    destruct H as [_ H]; discriminate H.
Qed.

Lemma getCategoriasCompativeis_PostTransacao_exemplo :
  In Exemplo.diversos
    (TransacoesManager.getCategoriasCompativeis (Categorias Exemplo.banco)
       "Receita")
  /\ fst (TransacoesController.PostTransacao Exemplo.banco 4
            (Exemplo.pedido "Bonus" 3000 "Receita" 3 2))
     = CreatedAtAction (Transacao.Build 4 "Bonus" 3000 "Receita" 3 2).
Proof.
  assert (H : In Exemplo.diversos
                (TransacoesManager.getCategoriasCompativeis
                   (Categorias Exemplo.banco) "Receita"))
    by (simpl; auto).
  split; [exact H |].
  apply (getCategoriasCompativeis_PostTransacao Exemplo.banco 4
           (Exemplo.pedido "Bonus" 3000 "Receita" 3 2)
           Exemplo.bia Exemplo.diversos).
  - reflexivity.
  - reflexivity.
  - left. simpl. lia.
  - reflexivity.
  - right. right. reflexivity.
  - exact H.
Defined.

(** ** Lookups after a deletion *)

(** X16.  After [DeletePessoa], whatever its answer, [GetPessoa] with the
    key answers [NotFound] and [GetPessoa] with any other key answers as
    before; the person of every transaction existing before the call, no
    item of [GetTransacoes] belongs to the key afterwards. *)
Theorem DeletePessoa_consultas (ctx : AppDbContext) (id : Z) :
  let ctx' := snd (PessoasController.DeletePessoa ctx id) in
  PessoasController.GetPessoa ctx' id
  = Result (NotFound "Pessoa não encontrada")
  /\ (forall k, k <> id ->
                PessoasController.GetPessoa ctx' k
                = PessoasController.GetPessoa ctx k)
  /\ ((forall t, In t (Transacoes ctx) ->
                 In (Transacao.PessoaId t) (map Pessoa.Id (Pessoas ctx))) ->
      forall x, In x (TransacoesController.GetTransacoes ctx') ->
                Transacao.PessoaId (TransacoesController.linha x) <> id).
Proof.
  intro ctx'. subst ctx'. rewrite DeletePessoa_snd.
  unfold PessoasController.GetPessoa, TransacoesController.GetTransacoes.
  destruct (FindPessoa ctx id) as [pessoa |] eqn:Hfind.
  - split; [| split].
    + replace (FindPessoa (semPessoa id ctx) id) with (@None Pessoa.t);
        [reflexivity |].
      symmetry. apply FindPessoa_None. unfold semPessoa. simpl.
      intro Hin. apply in_map_iff in Hin. destruct Hin as [p [Hp Hin]].
      apply filter_In in Hin. destruct Hin as [_ Hin].
      apply negb_true_iff, Z.eqb_neq in Hin. contradiction.
    + intros k Hk. rewrite (FindPessoa_semPessoa ctx id k (not_eq_sym Hk)).
      reflexivity.
    + intros _ x Hx. apply in_map_iff in Hx. destruct Hx as [t [Hx Ht]].
      subst x. simpl in *. apply filter_In in Ht. destruct Ht as [_ Ht].
      apply negb_true_iff, Z.eqb_neq in Ht. exact Ht.
  - split; [| split].
    + rewrite Hfind. reflexivity.
    + intros k _. reflexivity.
    + intros Href x Hx. apply in_map_iff in Hx. destruct Hx as [t [Hx Ht]].
      subst x. simpl. intro Hk.
      apply FindPessoa_None in Hfind. apply Hfind.
      rewrite <- Hk. apply Href. exact Ht.
Qed.

Lemma DeletePessoa_consultas_exemplo :
  forallb
    (fun x => negb (Transacao.PessoaId (TransacoesController.linha x) =? 2))
    (TransacoesController.GetTransacoes
       (snd (PessoasController.DeletePessoa Exemplo.banco 2)))
  = true.
Proof.
  apply forallb_forall. intros x Hx. apply negb_true_iff, Z.eqb_neq.
  pose proof (DeletePessoa_consultas Exemplo.banco 2) as H. cbv zeta in H.
  destruct H as [_ [_ H]].
  exact (H (referenciaPessoa _ banco_integro) x Hx).
Defined.

(** ** Lookup by key *)

(** X17.  [GetPessoa], [GetCategoria] and [GetTransacao] answer [NotFound]
    exactly when no row of the table has the key, and a value they return
    is a row of the table with the requested key.  The keys of a table
    being distinct, every row listed by [GetPessoas] or [GetCategorias] is
    the row returned for its own key. *)
Theorem consulta_por_chave (ctx : AppDbContext) (id : Z) :
  (PessoasController.GetPessoa ctx id
   = Result (NotFound "Pessoa não encontrada")
   <-> ~ In id (map Pessoa.Id (Pessoas ctx)))
  /\ (forall p, PessoasController.GetPessoa ctx id = Value p ->
                In p (Pessoas ctx) /\ Pessoa.Id p = id)
  /\ (CategoriasController.GetCategoria ctx id
      = Result (NotFound "Categoria não encontrada")
      <-> ~ In id (map Categoria.Id (Categorias ctx)))
  /\ (forall c, CategoriasController.GetCategoria ctx id = Value c ->
                In c (Categorias ctx) /\ Categoria.Id c = id)
  /\ (TransacoesController.GetTransacao ctx id
      = Result (NotFound "Transação não encontrada")
      <-> ~ In id (map Transacao.Id (Transacoes ctx)))
  /\ (forall x, TransacoesController.GetTransacao ctx id = Value x ->
                In (TransacoesController.linha x) (Transacoes ctx)
                /\ Transacao.Id (TransacoesController.linha x) = id)
  /\ (NoDup (map Pessoa.Id (Pessoas ctx)) ->
      forall p, In p (PessoasController.GetPessoas ctx) ->
                PessoasController.GetPessoa ctx (Pessoa.Id p) = Value p)
  /\ (NoDup (map Categoria.Id (Categorias ctx)) ->
      forall c, In c (CategoriasController.GetCategorias ctx) ->
                CategoriasController.GetCategoria ctx (Categoria.Id c)
                = Value c).
Proof.
  unfold PessoasController.GetPessoa, CategoriasController.GetCategoria,
    TransacoesController.GetTransacao, PessoasController.GetPessoas,
    CategoriasController.GetCategorias.
  repeat match goal with |- _ /\ _ => split end.
  - rewrite <- FindPessoa_None.
    destruct (FindPessoa ctx id); split; intro H; congruence.
  - intros p H. destruct (FindPessoa ctx id) as [q |] eqn:E; [| discriminate].
    injection H as H. subst q. apply FindPessoa_Some. exact E.
  - rewrite <- FindCategoria_None.
    destruct (FindCategoria ctx id); split; intro H; congruence.
  - intros c H. destruct (FindCategoria ctx id) as [q |] eqn:E;
      [| discriminate].
    injection H as H. subst q. apply FindCategoria_Some. exact E.
  - destruct (find _ (Transacoes ctx)) as [t |] eqn:E; split; intro H.
    + discriminate H.
    + exfalso. apply H. apply (find_chave Transacao.Id) in E.
      destruct E as [Hin Hk]. rewrite <- Hk. apply in_map. exact Hin.
    + intro Hin. apply in_map_iff in Hin. destruct Hin as [t [Hk Hin]].
      apply (find_none _ _ E) in Hin. lia.
    + reflexivity.
  - intros x H. destruct (find _ (Transacoes ctx)) as [t |] eqn:E;
      [| discriminate].
    injection H as H. subst x. simpl.
    apply (find_chave Transacao.Id). exact E.
  - intros Hnd p Hp. rewrite (FindPessoa_unico ctx p Hnd Hp). reflexivity.
  - intros Hnd c Hc. rewrite (FindCategoria_unico ctx c Hnd Hc). reflexivity.
Qed.

Lemma consulta_por_chave_exemplo :
  PessoasController.GetPessoa Exemplo.banco 9
  = Result (NotFound "Pessoa não encontrada")
  /\ PessoasController.GetPessoa Exemplo.banco 2 = Value Exemplo.bia.
Proof.
  pose proof (consulta_por_chave Exemplo.banco 9) as H9.
  pose proof (consulta_por_chave Exemplo.banco 2) as H2.
  destruct H9 as [H9 _].
  destruct H2 as [_ [_ [_ [_ [_ [_ [H2 _]]]]]]].
  split.
  - apply H9. simpl. intuition discriminate.
  - apply (H2 ltac:(chaves_distintas) Exemplo.bia). simpl. auto.
Defined.
